(** * pyggb: the Python/GeoGebra object bridge

    A shallow embedding of [src/wrap-ggb/shared.ts], of the script-facing
    [Rotate] function, of the [dependencies] model ([boot] thunk) and of
    the test runner's [deIndent], followed by the properties established
    about them. *)

From Stdlib Require Import ZArith NArith Ascii String List Lia Bool.
From Stdlib Require Import DecimalString DecimalN SpecFloat.
From stdpp Require Import base option gmap strings.

Open Scope string_scope.
Import ListNotations.

(** ** JavaScript strings: the few built-ins the bridge relies on *)

Module Js.

(** [s.split(c)] for a one-character separator [c]. *)
Fixpoint split (sep : ascii) (s : string) : list string :=
  match s with
  | EmptyString => [EmptyString]
  | String c rest =>
      if Ascii.eqb c sep then EmptyString :: split sep rest
      else match split sep rest with
           | [] => [String c EmptyString]
           | h :: t => String c h :: t
           end
  end.

(** Interpolation [${v}] of a possibly [undefined] string. *)
Definition interp (v : option string) : string :=
  match v with
  | Some s => s
  | None => "undefined"
  end.

(** [xs.join(sep)] on an array of strings. *)
Fixpoint join (sep : string) (xs : list string) : string :=
  match xs with
  | [] => ""
  | [x] => x
  | x :: rest => x ++ sep ++ join sep rest
  end.

(** The character [c] occurs nowhere in [s]. *)
Fixpoint lacks (c : ascii) (s : string) : bool :=
  match s with
  | EmptyString => true
  | String d rest => negb (Ascii.eqb d c) && lacks c rest
  end.

(** Last character of a string, if any. *)
Fixpoint last_char (s : string) : option ascii :=
  match s with
  | EmptyString => None
  | String c EmptyString => Some c
  | String _ rest => last_char rest
  end.

End Js.

(** ** JavaScript numbers, as [Number.prototype.toExponential] sees them

    A finite double is represented by the decimal that [toExponential()]
    prints for it: a sign, the digits [m] of the significand (the decimal
    point comes after the first one) and the power of ten [e].  Arithmetic
    on doubles is not modelled. *)

Inductive number : Type :=
| NaN
| Infinity (neg : bool)
| Finite (neg : bool) (m : N) (e : Z).

Definition digits_of (m : N) : string :=
  NilZero.string_of_uint (N.to_uint m).

(** Significand text: first digit, then ["."] and the others if any. *)
Definition sig_text (neg : bool) (m : N) : string :=
  let sign := if neg && negb (N.eqb m 0) then "-" else "" in
  match digits_of m with
  | EmptyString => sign ++ "0"
  | String d EmptyString => sign ++ String d EmptyString
  | String d rest => sign ++ String d (String "." rest)
  end.

(** Exponent text: always signed. *)
Definition exp_text (e : Z) : string :=
  (if (e <? 0)%Z then "-" else "+") ++ digits_of (Z.abs_N e).

Definition toExponential (x : number) : string :=
  match x with
  | NaN => "NaN"
  | Infinity neg => if neg then "-Infinity" else "Infinity"
  | Finite neg m e => sig_text neg m ++ "e" ++ exp_text e
  end.

(** Removing the trailing zeros of a decimal numeral. *)
Fixpoint strip_zeros (fuel : nat) (m : N) : N :=
  match fuel with
  | O => m
  | S fuel' =>
      if N.eqb m 0 then 0%N
      else if N.eqb (m mod 10) 0 then strip_zeros fuel' (m / 10)
      else m
  end.

(** The double holding the integer [z] (exact for [|z| < 2^53]). *)
Definition number_of_Z (z : Z) : number :=
  let a := Z.abs_N z in
  Finite (z <? 0)%Z
         (strip_zeros (N.to_nat (N.size a)) a)
         (Z.of_nat (String.length (digits_of a)) - 1).

(** ** shared.ts: [strOfNumber] *)

Definition encode_parts (jsStr : string) : string :=
  let parts := Js.split "e" jsStr in
  let sig := nth_error parts 0 in
  let exp := nth_error parts 1 in
  "(" ++ Js.interp sig ++ "*10^(" ++ Js.interp exp ++ "))".

Definition strOfNumber (x : number) : string :=
  encode_parts (toExponential x).

(** ** Reading texts *)

Module Text.

(** [s] without the prefix [p], when it starts with it. *)
Fixpoint strip_prefix (p s : string) : option string :=
  match p, s with
  | EmptyString, _ => Some s
  | String c p', String d s' =>
      if Ascii.eqb c d then strip_prefix p' s' else None
  | String _ _, EmptyString => None
  end.

(** [s] without its last character, when that is [c]. *)
Fixpoint strip_last (c : ascii) (s : string) : option string :=
  match s with
  | EmptyString => None
  | String d EmptyString => if Ascii.eqb d c then Some EmptyString else None
  | String d rest => String d <$> strip_last c rest
  end.

(** The number written by a non-empty text of decimal digits. *)
Definition read_digits (s : string) : option N :=
  match s with
  | EmptyString => None
  | _ => N.of_uint <$> NilEmpty.uint_of_string s
  end.

(** A whole number with an optional sign. *)
Definition read_signed (s : string) : option Z :=
  match s with
  | String "+" rest => Z.of_N <$> read_digits rest
  | String "-" rest => (fun n => Z.opp (Z.of_N n)) <$> read_digits rest
  | _ => Z.of_N <$> read_digits s
  end.

(** A decimal number [d.ddd] with an optional minus sign, as its sign,
    its digits read as a whole number, and the power of ten that the
    digits after the point divide it by. *)
Definition read_decimal (s : string) : option (bool * N * positive) :=
  let '(neg, body) :=
    match s with
    | String "-" rest => (true, rest)
    | _ => (false, s)
    end in
  match Js.split "." body with
  | [whole] => p ← read_digits whole; Some (neg, p, 1%positive)
  | [whole; frac] =>
      p ← read_digits (whole ++ frac);
      Some (neg, p, Pos.pow 10 (Pos.of_nat (String.length frac)))
  | _ => None
  end.

End Text.

(** ** The engine's arithmetic on the literal

    Modelled from the spec: the engine's parser and evaluator are not
    part of the sources.  The literal is an expression of the engine, the
    product of a decimal number and of a power of ten, and the values of
    the engine are doubles ("every representable finite double"): the
    decimal number is read as the nearest double, the power of ten is the
    double nearest to it, and their product is rounded to the nearest
    double, as IEEE 754 has it for binary64. *)

Module Binary64.

Definition prec : Z := 53.
Definition emax : Z := 1024.

(** The double nearest to [p / q], with the sign [neg]. *)
Definition nearest (neg : bool) (p : N) (q : positive) : spec_float :=
  match p with
  | N0 => S754_zero neg
  | Npos p => SFdiv prec emax (S754_finite neg p 0) (S754_finite false q 0)
  end.

(** The double nearest to [10^e]. *)
Definition pow10 (e : Z) : spec_float :=
  match e with
  | Z0 => nearest false 1 1
  | Zpos k => nearest false (Npos (Pos.pow 10 k)) 1
  | Zneg k => nearest false 1 (Pos.pow 10 k)
  end.

Definition mul : spec_float -> spec_float -> spec_float := SFmul prec emax.

(** The value that the engine gives to a literal [(s*10^(e))]; [None]
    when the text is not of that form. *)
Definition eval_literal (text : string) : option spec_float :=
  inside ← Text.strip_prefix "(" text;
  body ← Text.strip_last ")" inside;
  match Js.split "*" body with
  | [sig; power] =>
      tail ← Text.strip_prefix "10^(" power;
      exp ← Text.strip_last ")" tail;
      e ← Text.read_signed exp;
      '(neg, p, q) ← Text.read_decimal sig;
      Some (mul (nearest neg p q) (pow10 e))
  | _ => None
  end.

(** The double that a number is: the one nearest to the decimal that
    [toExponential] prints for it. *)
Definition double_of (x : number) : spec_float :=
  match x with
  | NaN => S754_nan
  | Infinity neg => S754_infinity neg
  | Finite neg m e =>
      match (e - (Z.of_nat (String.length (digits_of m)) - 1))%Z with
      | Z0 => nearest neg m 1
      | Zpos k => nearest neg (m * Npos (Pos.pow 10 k)) 1
      | Zneg k => nearest neg m (Pos.pow 10 k)
      end
  end.

End Binary64.

(** ** Skulpt objects and exceptions *)

Inductive ErrKind : Set :=
| TypeError | RuntimeError | AttributeError | UnknownTypeError | OtherError
| JsTypeError.   (* a TypeError of JavaScript itself, not a Python one *)

Record PyErr : Set := mkErr { err_kind : ErrKind; err_msg : string }.

(** A Skulpt object which is also a wrapped GeoGebra object.  [objId] is
    the identity of the JavaScript object; its [$updateHandlers] array is
    kept in the heap under that identity. *)
Record SkGgbObject : Set := mkGgb {
  objId : nat;
  tpName : string;
  ggbLabel : string
}.

(** The payload [v] of a Python number.  That of a [float], of a [bool]
    and of an [int] of magnitude below [2^53] is a JavaScript number;
    Skulpt keeps a larger [int] as a BigInt. *)
Inductive Payload : Set :=
| Num (n : number)
| Big (z : Z).

Coercion Num : number >-> Payload.

(** The script values the bridge can be handed.  [SkInstance] is an
    instance of a class written in the script, which the bridge knows by
    its identity only. *)
Inductive SkObject : Set :=
| SkNone
| SkBool (b : bool)
| SkInt (v : Payload)
| SkFloat (v : number)
| SkStr (v : string)
| SkFunc (f : nat)
| SkGgb (o : SkGgbObject)
| SkInstance (id : nat).

Definition is_zero (x : number) : bool :=
  match x with
  | Finite _ m _ => N.eqb m 0
  | _ => false
  end.

(** [Sk.builtin.checkNumber(x)], with the payload [x.v]: every Python
    [int] and [float] passes, whatever its payload ([bool] is a subclass
    of [int]). *)
Definition checkNumber (x : SkObject) : option Payload :=
  match x with
  | SkInt v => Some v
  | SkFloat v => Some (Num v)
  | SkBool b => Some (Num (number_of_Z (if b then 1 else 0)))
  | _ => None
  end.

(** [Sk.builtin.checkString(x)], with the narrowed payload. *)
Definition checkString (x : SkObject) : option string :=
  match x with
  | SkStr s => Some s
  | _ => None
  end.

(** The truth value of the built-in values, which Skulpt finds without
    running any code of the script; that of an instance takes a call of
    its [__bool__] or [__len__]. *)
Definition truthiness (x : SkObject) : option bool :=
  match x with
  | SkNone => Some false
  | SkBool b => Some b
  | SkInt (Num v) | SkFloat v => Some (negb (is_zero v))
  | SkInt (Big z) => Some (negb (Z.eqb z 0))
  | SkStr s => Some (negb (String.eqb s ""))
  | SkFunc _ => Some true
  | SkGgb _ => Some true
  | SkInstance _ => None
  end.

(** ** The world outside the bridge

    Every call that leaves the bridge is an event: the operations of the
    GeoGebra applet API ([ggbApi], which the bridge passes around and
    which is the ambient world here) and the entry points of the Skulpt
    run time that the bridge calls back into.  The applet API reports
    failure in what it returns; the Skulpt entry points run code of the
    script and may raise a Python exception, which is part of their
    answer.  [nb_bool] is the call of [__bool__] or [__len__] that
    [Sk.misceval.isTrue] makes on an instance; [tp_setattr_cast] is
    [tp$setattr] called on what TypeScript's casts let through. *)

Inductive Event : Set -> Set :=
| evalCommandGetLabels (cmd : string) : Event string
| getObjectType (label : string) : Event string
| getVisible (label : string) : Event bool
| setVisible (label : string) (visible : bool) : Event unit
| isIndependent (label : string) : Event bool
| getColor (label : string) : Event string
| setColor (label : string) (rgb : list number) : Event unit
| getPointSize (label : string) : Event number
| setPointSize (label : string) (size : Payload) : Event unit
| getLineThickness (label : string) : Event number
| setLineThickness (label : string) (thickness : Payload) : Event unit
| tp_setattr (obj : SkObject) (name : string) (value : SkObject)
    : Event (option PyErr)
| callsim (f : SkObject) (args : list SkObject) : Event (PyErr + SkObject)
| nb_bool (x : SkObject) : Event (PyErr + bool)
| tp_setattr_cast (obj : SkObject) (name value : string + SkObject)
    : Event (option PyErr).

(** An event, forgetting the type of its answer. *)
Inductive Called : Type :=
| called {R : Set} (ev : Event R).

(** Bridge code: it returns, throws, or calls out and goes on with the
    answer. *)
Inductive Prog (A : Type) : Type :=
| Ret (a : A)
| Throw (e : PyErr)
| Vis {R : Set} (ev : Event R) (k : R -> Prog A).

Arguments Ret {A} a.
Arguments Throw {A} e.
Arguments Vis {A R} ev k.

Fixpoint bind {A B : Type} (p : Prog A) (f : A -> Prog B) : Prog B :=
  match p with
  | Ret a => f a
  | Throw e => Throw e
  | Vis ev k => Vis ev (fun r => bind (k r) f)
  end.

#[global] Instance prog_ret : MRet Prog := @Ret.
#[global] Instance prog_bind : MBind Prog := fun A B f p => bind p f.

(** One call out, returning the answer. *)
Definition trigger {R : Set} (ev : Event R) : Prog R := Vis ev Ret.

Inductive Outcome (A : Type) : Type :=
| Returned (a : A)
| Raised (e : PyErr).

Arguments Returned {A} a.
Arguments Raised {A} e.

Section Run.

(** The outside world: some state, and an answer to every event. *)
Variable W : Type.
Variable answer : forall R : Set, Event R -> W -> R * W.

(** Running bridge code: the calls made, in order, the outcome and the
    world afterwards. *)
Fixpoint run {A : Type} (p : Prog A) (w : W) : list Called * Outcome A * W :=
  match p with
  | Ret a => ([], Returned a, w)
  | Throw e => ([], Raised e, w)
  | Vis ev k =>
      let '(r, w1) := answer _ ev w in
      let '(tr, out, w2) := run (k r) w1 in
      (called ev :: tr, out, w2)
  end.

Definition trace {A : Type} (p : Prog A) (w : W) : list Called :=
  (run p w).1.1.

Definition outcome {A : Type} (p : Prog A) (w : W) : Outcome A :=
  (run p w).1.2.

Definition world_after {A : Type} (p : Prog A) (w : W) : W :=
  (run p w).2.

End Run.

(** [Sk.misceval.isTrue(x)]: Python truthiness.  For an instance it is
    what its [__bool__] or [__len__] gives, or the exception that this
    call raises. *)
Definition isTrue (x : SkObject) : Prog bool :=
  match truthiness x with
  | Some b => Ret b
  | None =>
      r ← trigger (nb_bool x);
      match r with
      | inl e => Throw e
      | inr b => Ret b
      end
  end.

Arguments run {W} answer {A} p w.
Arguments trace {W} answer {A} p w.
Arguments outcome {W} answer {A} p w.
Arguments world_after {W} answer {A} p w.

(** ** shared.ts: recognising wrapped objects and numbers *)

(** [_isGgbObject]: the object has a [$ggbLabel].  As a TypeScript type
    predicate it narrows its argument, which is returned here. *)
Definition _isGgbObject (obj : SkObject) : option SkGgbObject :=
  match obj with
  | SkGgb o => Some o
  | _ => None
  end.

Definition isGgbObject (obj : SkObject) (requiredType : option string)
  : Prog (option SkGgbObject) :=
  match _isGgbObject obj with
  | None => Ret None
  | Some o =>
      match requiredType with
      | None => Ret (Some o)
      | Some required =>
          gotType ← trigger (getObjectType (ggbLabel o));
          Ret (if String.eqb gotType required then Some o else None)
      end
  end.

Definition everyElementIsGgbObject (objs : list SkObject) : bool :=
  forallb (fun obj => bool_decide (is_Some (_isGgbObject obj))) objs.

Definition isPythonOrGgbNumber (obj : SkObject) : Prog bool :=
  match checkNumber obj with
  | Some _ => Ret true
  | None =>
      o ← isGgbObject obj (Some "numeric");
      Ret (bool_decide (is_Some o))
  end.

(** What JavaScript throws at [x.v.toExponential()] when the payload is a
    BigInt, which has no such method. *)
Definition notAFunction : PyErr :=
  mkErr JsTypeError "x.v.toExponential is not a function".

Definition numberValueOrLabel (x : SkObject) : Prog string :=
  o ← isGgbObject x (Some "numeric");
  match o with
  | Some g => Ret (ggbLabel g)
  | None =>
      match checkNumber x with
      | Some (Num v) => Ret (encode_parts (toExponential v))
      | Some (Big _) => Throw notAFunction
      | None =>
          Throw (mkErr RuntimeError "internal error: not Number or number")
      end
  end.

(** ** shared.ts: [with_properties] *)

(** An element of a FastCall [kwargs] array: names and values alternate. *)
Inductive KwItem : Set :=
| KwName (name : string)
| KwValue (value : SkObject).

Definition uncast (item : KwItem) : string + SkObject :=
  match item with
  | KwName name => inl name
  | KwValue value => inr value
  end.

(** [obj.tp$setattr(propPyName, propValue)] for the items at [i] and
    [i + 1].  The two casts are not checked: when the items are not a
    name and a value, [tp$setattr] is called all the same, with what
    they are. *)
Definition setattr_at (obj : SkObject) (item0 item1 : KwItem)
  : Event (option PyErr) :=
  match item0, item1 with
  | KwName propName, KwValue propValue => tp_setattr obj propName propValue
  | _, _ => tp_setattr_cast obj (uncast item0) (uncast item1)
  end.

(** The [for] loop, from index [i] on: [rest] is what the array holds
    from [i] on, and [i] reaches the length when [rest] is empty.  The
    caller has checked that the length is even; on an odd length [i]
    would step over the length and the loop would not end, which is
    shown here as an exception of its own. *)
Fixpoint setattr_loop (obj : SkObject) (rest : list KwItem) : Prog unit :=
  match rest with
  | [] => Ret tt
  | item0 :: item1 :: rest' =>
      r ← trigger (setattr_at obj item0 item1);
      match r with
      | Some e => Throw e
      | None => setattr_loop obj rest'
      end
  | [_] => Throw (mkErr OtherError "loop over an odd length")
  end.

Definition withPropertiesFromNameValuePairs
    (obj : SkObject) (propNamesValues : option (list KwItem)) : Prog SkObject :=
  let propNamesValues := default [] propNamesValues in
  if negb (Nat.eqb (length propNamesValues mod 2) 0) then
    Throw (mkErr RuntimeError "internal error: propNamesValues not in pairs")
  else
    _ ← setattr_loop obj propNamesValues;
    Ret obj.

Definition throwIfNotGgbObject (obj : SkObject) (objName : string)
  : Prog SkGgbObject :=
  match _isGgbObject obj with
  | Some o => Ret o
  | None => Throw (mkErr TypeError (objName ++ " must be a GeoGebra object"))
  end.

Definition throwIfNotString (pyObj : SkObject) (objName : string)
  : Prog string :=
  match checkString pyObj with
  | Some s => Ret s
  | None => Throw (mkErr TypeError (objName ++ " must be a string"))
  end.

Definition throwIfNotNumber (pyObj : SkObject) (objName : string)
  : Prog Payload :=
  match checkNumber pyObj with
  | Some v => Ret v
  | None => Throw (mkErr TypeError (objName ++ " must be a number"))
  end.

(** A method descriptor: its [$flags] and its [$meth]. *)
Record MethodDescriptor (Meth : Type) : Type := {
  flags : list (string * bool);
  meth : Meth
}.

Arguments flags {Meth} _.
Arguments meth {Meth} _.

(** [withPropertiesMethodsSlice.with_properties.$meth] *)
Definition with_properties
    (this : SkGgbObject) (args : list SkObject) (kwargs : option (list KwItem))
  : Prog SkObject :=
  if negb (Nat.eqb (length args) 0) then Throw (mkErr TypeError "only kwargs")
  else withPropertiesFromNameValuePairs (SkGgb this) kwargs.

Definition withPropertiesMethodsSlice :=
  [("with_properties",
    {| flags := [("FastCall", true)]; meth := with_properties |})].

(** ** shared.ts: the shared properties *)

Module GetSets.

Record ReadOnlyProperty : Type := {
  ro_get : SkGgbObject -> Prog SkObject
}.

Record ReadWriteProperty : Type := {
  get : SkGgbObject -> Prog SkObject;
  set : SkGgbObject -> SkObject -> Prog unit
}.

Record SharedGetSets : Type := {
  is_visible : ReadWriteProperty;
  is_independent : ReadOnlyProperty;
  color : ReadWriteProperty;
  size : ReadWriteProperty;
  line_thickness : ReadWriteProperty
}.

End GetSets.

Section SharedGetSets.

(** [parseColorOrFail] of [color.ts], which is not part of the sources
    at hand: a colour text gives its components or an exception. *)
Variable parseColorOrFail : string -> PyErr + list number.

Definition sharedGetSets : GetSets.SharedGetSets := {|
  GetSets.is_visible := {|
    GetSets.get this :=
      b ← trigger (getVisible (ggbLabel this)); Ret (SkBool b);
    GetSets.set this pyIsVisible :=
      isVisible ← isTrue pyIsVisible;
      trigger (setVisible (ggbLabel this) isVisible)
  |};
  GetSets.is_independent := {|
    GetSets.ro_get this :=
      b ← trigger (isIndependent (ggbLabel this)); Ret (SkBool b)
  |};
  GetSets.color := {|
    GetSets.get this :=
      color ← trigger (getColor (ggbLabel this)); Ret (SkStr color);
    GetSets.set this pyColor :=
      v ← throwIfNotString pyColor "color";
      match parseColorOrFail v with
      | inl e => Throw e
      | inr mRGB => trigger (setColor (ggbLabel this) mRGB)
      end
  |};
  GetSets.size := {|
    GetSets.get this :=
      n ← trigger (getPointSize (ggbLabel this)); Ret (SkFloat n);
    GetSets.set this pySize :=
      v ← throwIfNotNumber pySize "size must be a number";
      trigger (setPointSize (ggbLabel this) v)
  |};
  GetSets.line_thickness := {|
    GetSets.get this :=
      n ← trigger (getLineThickness (ggbLabel this)); Ret (SkInt (Num n));
    GetSets.set this pyThickness :=
      v ← throwIfNotNumber pyThickness "line_thickness must be a number";
      trigger (setLineThickness (ggbLabel this) v)
  |}
|}.

End SharedGetSets.

(** ** The Type Registry and the wrappers' heap

    The identities of the wrapper objects allocated so far, each with its
    [$updateHandlers] array. *)
Abbreviation Heap := (gmap nat (list SkObject)).

(** The registry: engine type tag to the wrapper class registered for it. *)
Abbreviation Registry := (gmap string string).

(** Modelled from the spec: [wrapExistingGgbObject] of [type-registry.ts]
    is not part of the sources at hand.  It "looks up the engine-reported
    type tag for [label], then the constructor registered for that tag,
    and invokes it", and "fails with [UnknownTypeError] if no constructor
    is registered for the reported tag".  The constructor allocates a new
    wrapper over [label], with no update handler yet. *)
Definition wrapExistingGgbObject
    (registry : Registry) (label : string) (h : Heap) : Prog (SkObject * Heap) :=
  tag ← trigger (getObjectType label);
  match registry !! tag with
  | None => Throw (mkErr UnknownTypeError tag)
  | Some cls =>
      let id := fresh (dom h) in
      Ret (SkGgb (mkGgb id cls label), <[id := []]> h)
  end.

(** [evalCmd] of the augmented API. *)
Definition evalCmd (cmd : string) : Prog string :=
  trigger (evalCommandGetLabels cmd).

(** [freeCopyMethodsSlice(ggbApi).free_copy.$meth] *)
Definition free_copy (registry : Registry) (this : SkGgbObject) (h : Heap)
  : Prog (SkObject * Heap) :=
  let ggbCmd := "CopyFreeObject(" ++ ggbLabel this ++ ")" in
  label ← trigger (evalCommandGetLabels ggbCmd);
  wrapExistingGgbObject registry label h.

Definition freeCopyMethodsSlice (registry : Registry) :=
  [("free_copy",
    {| flags := [("NoArgs", true)]; meth := free_copy registry |})].

(** ** The update listeners *)

(** Modelled from the spec: the code that registers update handlers and
    [$fireUpdateEvents] itself are not part of the sources at hand, which
    only declare them ([SkGgbObject]).  [register] "appends to that
    object's ordered handler list; multiple registrations are allowed and
    all retained". *)
Definition register (wrapper : SkGgbObject) (callback : SkObject) (h : Heap)
  : Heap :=
  <[objId wrapper := (default [] (h !! objId wrapper) ++ [callback])%list]> h.

(** Calling the handlers of a snapshot one after the other; an exception
    of a handler ends the pass and goes on to the caller. *)
Fixpoint fire_each (handlers : list SkObject) (args : list SkObject)
  : Prog unit :=
  match handlers with
  | [] => Ret tt
  | f :: rest =>
      r ← trigger (callsim f args);
      match r with
      | inl e => Throw e
      | inr _ => fire_each rest args
      end
  end.

(** Modelled from the spec: [fire] "invokes every currently-registered
    handler, in registration order, with the given arguments", on "a
    snapshot of the handler list at the start of the pass"; "handler
    exceptions propagate"; firing on an object that is gone "is a no-op". *)
Definition fireUpdateEvents
    (wrapper : SkGgbObject) (args : list SkObject) (h : Heap) : Prog unit :=
  let snapshot := default [] (h !! objId wrapper) in
  fire_each snapshot args.

(** ** The script-facing [Rotate] *)

(** Modelled from the spec: [throwIfNotPyOrGgbNumber] is called by
    [Rotate] but is not part of the sources at hand; by the coercion rule
    it must "raise TypeError naming the argument's declared role" for what
    is neither a host number nor a numeric object. *)
Definition throwIfNotPyOrGgbNumber (pyObj : SkObject) (objName : string)
  : Prog unit :=
  ok ← isPythonOrGgbNumber pyObj;
  if ok : bool then Ret tt
  else Throw (mkErr TypeError (objName ++ " must be a number")).

Definition badArgsError : PyErr :=
  mkErr TypeError
        ("Rotate() arguments must be" ++
         " (object, angle)" ++
         " or (object, angle, rotation_center_point)").

Section Rotate.

(** [assembledCommand] is imported by [Rotate] but is not part of the
    sources at hand: the command text for a name and its arguments. *)
Variable assembledCommand : string -> list string -> string.

Variable registry : Registry.

Definition Rotate (args : list SkObject) (h : Heap) : Prog (SkObject * Heap) :=
  match args with
  | [arg0; pyAngle] =>
      o ← isGgbObject arg0 None;
      match o with
      | None => Throw badArgsError
      | Some obj =>
          _ ← throwIfNotPyOrGgbNumber pyAngle "rotation angle";
          angleArg ← numberValueOrLabel pyAngle;
          let ggbArgs := [ggbLabel obj; angleArg] in
          let ggbCmd := assembledCommand "Rotate" ggbArgs in
          label ← evalCmd ggbCmd;
          wrapExistingGgbObject registry label h
      end
  | _ => Throw badArgsError
  end.

End Rotate.

(** ** model/dependencies.ts *)

Module Dependencies.

Inductive BootStatus : Set := idle | running | done.

#[global] Instance BootStatus_eq_dec : EqDecision BootStatus.
Proof. solve_decision. Defined.

(** The state part of the model; the applet API object is opaque. *)
Record State : Set := mkState {
  bootStatus : BootStatus;
  ggbApi : option nat;
  ggbPythonModuleText : string
}.

Definition dependencies : State :=
  {| bootStatus := idle; ggbApi := None; ggbPythonModuleText := "" |}.

Definition allReady (s : State) : bool :=
  bool_decide (ggbApi s <> None)
  && negb (String.eqb (ggbPythonModuleText s) "").

Definition setBootStatus (status : BootStatus) (s : State) : State :=
  {| bootStatus := status;
     ggbApi := ggbApi s;
     ggbPythonModuleText := ggbPythonModuleText s |}.

Definition setGgbApi (api : option nat) (s : State) : State :=
  {| bootStatus := bootStatus s;
     ggbApi := api;
     ggbPythonModuleText := ggbPythonModuleText s |}.

Definition setGgbPythonModuleText (moduleText : string) (s : State) : State :=
  {| bootStatus := bootStatus s;
     ggbApi := ggbApi s;
     ggbPythonModuleText := moduleText |}.

(** The three [await]s of [boot]. *)
Inductive Await : Set :=
| fetch_module      (* await fetch(SkulptGgbModuleUrl) *)
| response_text     (* await response.text() *)
| ensure_files.     (* await db.ensureUserFilesNonEmpty() *)

(** Where one invocation of [boot] stands. *)
Inductive Task : Set :=
| Awaiting (a : Await)
| Returned
| Rejected.

(** How an awaited promise settles; only the text of the response is
    looked at. *)
Inductive Settled : Set :=
| Resolved (value : string)
| Failed.

(** [boot], from its call to its first [await]. *)
Definition boot_enter (s : State) : State * Task :=
  let status := bootStatus s in
  if bool_decide (status <> idle) then (s, Returned)
  else (setBootStatus running s, Awaiting fetch_module).

(** [boot], from the [await] [a] settling to the next one or the end. *)
Definition boot_resume (a : Await) (v : Settled) (s : State) : State * Task :=
  match v with
  | Failed => (s, Rejected)
  | Resolved value =>
      match a with
      | fetch_module => (s, Awaiting response_text)
      | response_text =>
          (setGgbPythonModuleText value s, Awaiting ensure_files)
      | ensure_files => (setBootStatus done s, Returned)
      end
  end.

(** The store and every invocation of [boot] made so far.  JavaScript
    runs one of them at a time, from one [await] to the next. *)
Record System : Set := mkSystem {
  store : State;
  tasks : list Task
}.

Inductive Input : Set :=
| dispatch_boot
| settle (i : nat) (v : Settled).

Definition step (x : Input) (sys : System) : System :=
  match x with
  | dispatch_boot =>
      let '(s, t) := boot_enter (store sys) in
      mkSystem s (tasks sys ++ [t])
  | settle i v =>
      match tasks sys !! i with
      | Some (Awaiting a) =>
          let '(s, t) := boot_resume a v (store sys) in
          mkSystem s (<[i := t]> (tasks sys))
      | _ => sys
      end
  end.

Definition initial : System := mkSystem dependencies [].

Definition exec (xs : list Input) (sys : System) : System :=
  fold_left (fun acc x => step x acc) xs sys.

(** The only moves of [bootStatus]. *)
Definition moves (a b : BootStatus) : Prop :=
  a = b \/ (a = idle /\ b = running) \/ (a = running /\ b = done).

(** Invocations that got past the guard and have not ended. *)
Definition in_flight (t : Task) : bool :=
  match t with
  | Awaiting _ => true
  | _ => false
  end.

Fixpoint count_in_flight (ts : list Task) : nat :=
  match ts with
  | [] => 0
  | t :: rest => (if in_flight t then 1 else 0) + count_in_flight rest
  end.

Definition flying (sys : System) : nat := count_in_flight (tasks sys).

(** Does this input take [boot] past its guard? *)
Definition passes_guard (x : Input) (sys : System) : bool :=
  match x with
  | dispatch_boot => bool_decide (bootStatus (store sys) = idle)
  | settle _ _ => false
  end.

(** How many times [boot] got past its guard along a run. *)
Fixpoint passes (xs : list Input) (sys : System) : nat :=
  match xs with
  | [] => 0
  | x :: rest =>
      (if passes_guard x sys then 1 else 0) + passes rest (step x sys)
  end.

(** While [boot] may still start, none is under way; once one has
    started, at most that one is; when it is done, none is. *)
Definition guarded (sys : System) : Prop :=
  match bootStatus (store sys) with
  | idle => flying sys = 0
  | running => flying sys <= 1
  | done => flying sys = 0
  end.

End Dependencies.

(** ** The test runner's [deIndent] *)

Module DeIndent.

Definition newline : ascii := "010"%char.

(** [allSpaces.test(s)], for the pattern [^ *$]. *)
Fixpoint allSpaces (s : string) : bool :=
  match s with
  | EmptyString => true
  | String c rest => Ascii.eqb c " " && allSpaces rest
  end.

(** [initialSpaces.exec(s)[0].length], for the pattern [^ *]. *)
Fixpoint initialSpaces (s : string) : nat :=
  match s with
  | EmptyString => 0
  | String c rest => if Ascii.eqb c " " then S (initialSpaces rest) else 0
  end.

(** [Math.min(...xs)]; of no number at all it is [Infinity], here [None]. *)
Fixpoint math_min (xs : list nat) : option nat :=
  match xs with
  | [] => None
  | x :: rest =>
      match math_min rest with
      | None => Some x
      | Some y => Some (Nat.min x y)
      end
  end.

(** [s.substring(k)] for a natural number [k]. *)
Fixpoint drop_chars (k : nat) (s : string) : string :=
  match k, s with
  | O, _ => s
  | S k', String _ rest => drop_chars k' rest
  | S _, EmptyString => EmptyString
  end.

(** [s.substring(k)], where [k] may be [Infinity]. *)
Definition substring (k : option nat) (s : string) : string :=
  match k with
  | None => EmptyString
  | Some k => drop_chars k s
  end.

(** [xs.slice(from, to)] on an array. *)
Definition slice {A : Type} (from to : nat) (xs : list A) : list A :=
  take (to - from) (drop from xs).

Inductive Result : Set :=
| Value (s : string)
| Error (message : string).

Definition deIndent (rawCode : string) : Result :=
  let allLines := Js.split newline rawCode in
  if negb (bool_decide (allLines !! 0 = Some EmptyString)) then
    Error "need empty first line of code"
  else
    let nLines := length allLines in
    if negb (default false (allSpaces <$> allLines !! (nLines - 1))) then
      Error "need all-spaces last line of code"
    else
      let lines := slice 1 (nLines - 1) allLines in
      let nonBlankLines :=
        List.filter (fun line => negb (allSpaces line)) lines in
      let nonBlankIndents := map initialSpaces nonBlankLines in
      let minNonBlankIndent := math_min nonBlankIndents in
      let strippedLines := map (substring minNonBlankIndent) lines in
      Value (Js.join (String newline EmptyString) strippedLines
             ++ String newline EmptyString).

(** The text of [n] spaces. *)
Fixpoint spaces (n : nat) : string :=
  match n with
  | O => EmptyString
  | S n' => String " " (spaces n')
  end.

(** The text of the given lines, each ended by a line feed. *)
Fixpoint unlines (lines : list string) : string :=
  match lines with
  | [] => EmptyString
  | line :: rest => line ++ String newline (unlines rest)
  end.

(** The lines between the first and the last, as [deIndent] takes them. *)
Definition inner (rawCode : string) : list string :=
  slice 1 (length (Js.split newline rawCode) - 1) (Js.split newline rawCode).

(** The lines of code: those not made of spaces only. *)
Definition code_lines (lines : list string) : list string :=
  List.filter (fun line => negb (allSpaces line)) lines.

(** The least indent of the lines of code. *)
Definition least_indent (lines : list string) : option nat :=
  math_min (map initialSpaces (code_lines lines)).

End DeIndent.

(** ** The engine's construction

    Modelled from the spec: the engine is not part of the sources.  Its
    objects are those of spec 3 (a label, a type tag, the attributes
    visible, color, size and line thickness, and the independence flag).
    Of its commands only [CopyFreeObject] is modelled, by the words of
    spec 6 for [free_copy] ("new independent ... duplicating current
    state"): it makes, under a label not in use, an object with the type
    and the attributes of the object named, and independent.  Any other
    command, or the copy of an object that is not there, makes nothing
    and returns no label. *)

Module Engine.

Record GeoObject : Set := mkGeo {
  geoType : string;
  geoVisible : bool;
  geoColor : list number;
  geoPointSize : number;
  geoLineThickness : number;
  geoIndependent : bool
}.

Abbreviation Construction := (gmap string GeoObject).

Definition copied_label (cmd : string) : option string :=
  Text.strip_prefix "CopyFreeObject(" cmd ≫= Text.strip_last ")".

Definition free_copy_of (o : GeoObject) : GeoObject :=
  mkGeo (geoType o) (geoVisible o) (geoColor o) (geoPointSize o)
        (geoLineThickness o) true.

Definition evalCommand (cmd : string) (c : Construction)
  : string * Construction :=
  match copied_label cmd with
  | Some label =>
      match c !! label with
      | Some o =>
          let new := fresh (dom c) in (new, <[new := free_copy_of o]> c)
      | None => (EmptyString, c)
      end
  | None => (EmptyString, c)
  end.

(** A change of the object under [label], if there is one. *)
Definition change (label : string) (f : GeoObject -> GeoObject)
    (c : Construction) : Construction :=
  match c !! label with
  | Some o => <[label := f o]> c
  | None => c
  end.

(** The double that the engine makes of a payload. *)
Definition as_number (v : Payload) : number :=
  match v with
  | Num n => n
  | Big z => number_of_Z z
  end.

(** The text that the engine gives for a colour. *)
Definition color_text (rgb : list number) : string :=
  Js.join "," (map toExponential rgb).

Definition answer (R : Set) (ev : Event R) (c : Construction)
  : R * Construction :=
  match ev in Event R return R * Construction with
  | evalCommandGetLabels cmd => evalCommand cmd c
  | getObjectType label => (default EmptyString (geoType <$> c !! label), c)
  | getVisible label => (default false (geoVisible <$> c !! label), c)
  | setVisible label b =>
      (tt, change label
             (fun o => mkGeo (geoType o) b (geoColor o) (geoPointSize o)
                             (geoLineThickness o) (geoIndependent o)) c)
  | isIndependent label => (default false (geoIndependent <$> c !! label), c)
  | getColor label =>
      (default EmptyString ((fun o => color_text (geoColor o)) <$> c !! label),
       c)
  | setColor label rgb =>
      (tt, change label
             (fun o => mkGeo (geoType o) (geoVisible o) rgb (geoPointSize o)
                             (geoLineThickness o) (geoIndependent o)) c)
  | getPointSize label => (default NaN (geoPointSize <$> c !! label), c)
  | setPointSize label v =>
      (tt, change label
             (fun o => mkGeo (geoType o) (geoVisible o) (geoColor o)
                             (as_number v) (geoLineThickness o)
                             (geoIndependent o)) c)
  | getLineThickness label =>
      (default NaN (geoLineThickness <$> c !! label), c)
  | setLineThickness label v =>
      (tt, change label
             (fun o => mkGeo (geoType o) (geoVisible o) (geoColor o)
                             (geoPointSize o) (as_number v)
                             (geoIndependent o)) c)
  | tp_setattr _ _ _ => (None, c)
  | callsim _ _ => (inr SkNone, c)
  | nb_bool _ => (inr true, c)
  | tp_setattr_cast _ _ _ => (None, c)
  end.

(** A construction with one point. *)
Definition point : GeoObject :=
  mkGeo "point" true [number_of_Z 255; number_of_Z 0; number_of_Z 0]
        (number_of_Z 5) (number_of_Z 2) false.

Definition construction : Construction := {[ "A" := point ]}.

End Engine.

(** ** Vocabulary of the properties *)

Definition internalError : PyErr :=
  mkErr RuntimeError "internal error: not Number or number".

(** The FastCall array for the keyword arguments [name=value, ...]. *)
Definition kwargs_of (pairs : list (string * SkObject)) : list KwItem :=
  flat_map (fun '(name, value) => [KwName name; KwValue value]) pairs.

Definition setattr_call (obj : SkObject) (pair : string * SkObject) : Called :=
  called (tp_setattr obj pair.1 pair.2).

Section Refusal.

Context {W : Type} (answer : forall R : Set, Event R -> W -> R * W).

(** The exception of the first setter that raises one, if any does,
    when the setters for [pairs] are called in turn from [w]. *)
Fixpoint first_refusal
    (obj : SkObject) (pairs : list (string * SkObject)) (w : W)
  : option PyErr :=
  match pairs with
  | [] => None
  | (name, value) :: rest =>
      let '(r, w1) := answer _ (tp_setattr obj name value) w in
      match r with
      | Some e => Some e
      | None => first_refusal obj rest w1
      end
  end.

End Refusal.

(** The texts handed to [evalCommandGetLabels] along a run. *)
Fixpoint commands (tr : list Called) : list string :=
  match tr with
  | [] => []
  | called ev :: rest =>
      match ev with
      | evalCommandGetLabels cmd => cmd :: commands rest
      | _ => commands rest
      end
  end.

(** A text of the shape [Name[arg1,arg2,...]]. *)
Definition bracket_form (cmd : string) : Prop :=
  exists (name : string) (args : list string),
    cmd = name ++ "[" ++ Js.join "," args ++ "]".

(** The same, written with round brackets. *)
Definition round_brackets (name : string) (args : list string) : string :=
  name ++ "(" ++ Js.join "," args ++ ")".

(** ** A small world to run the bridge in

    The object ["n"] is a number and every other one a point; a command
    makes the object ["B"]; the handler [SkFunc 13] raises; the state
    counts the calls; the instance [SkInstance 13] raises when asked for
    its truth value. *)

Module Demo.

Definition boom : PyErr := mkErr OtherError "boom".

Definition reply (R : Set) (ev : Event R) : R :=
  match ev in Event R return R with
  | evalCommandGetLabels _ => "B"
  | getObjectType label =>
      if String.eqb label "n" then "numeric" else "point"
  | getVisible _ => true
  | setVisible _ _ => tt
  | isIndependent _ => true
  | getColor _ => "#000000"
  | setColor _ _ => tt
  | getPointSize _ => number_of_Z 5
  | setPointSize _ _ => tt
  | getLineThickness _ => number_of_Z 5
  | setLineThickness _ _ => tt
  | tp_setattr _ _ _ => None
  | callsim f _ =>
      match f with
      | SkFunc 13 => inl boom
      | _ => inr SkNone
      end
  | nb_bool x =>
      match x with
      | SkInstance 13 => inl boom
      | _ => inr true
      end
  | tp_setattr_cast _ _ _ => None
  end.

Definition answer (R : Set) (ev : Event R) (calls : nat) : R * nat :=
  (reply R ev, S calls).

Definition registry : Registry :=
  {[ "point" := "Point"; "numeric" := "Number" ]}.

Definition point_A : SkGgbObject := mkGgb 0 "Point" "A".
Definition number_n : SkGgbObject := mkGgb 1 "Number" "n".

Definition heap : Heap := {[ 0 := []; 1 := [] ]}.

Definition parseColorOrFail (s : string) : PyErr + list number :=
  if String.eqb s "red"
  then inr [number_of_Z 255; number_of_Z 0; number_of_Z 0]
  else inl (mkErr OtherError "unknown colour").

End Demo.

(** ** An engine that keeps what it is told

    The world is the list of the calls made so far, the latest first; a
    getter answers with what the latest matching setter was given. *)

Module Store.

(** The double that the engine makes of a payload. *)
Definition as_number (v : Payload) : number :=
  match v with
  | Num n => n
  | Big z => number_of_Z z
  end.

Fixpoint last_visible (label : string) (log : list Called) : bool :=
  match log with
  | [] => true
  | called ev :: rest =>
      match ev with
      | setVisible l b =>
          if String.eqb l label then b else last_visible label rest
      | _ => last_visible label rest
      end
  end.

Fixpoint last_size (label : string) (log : list Called) : number :=
  match log with
  | [] => number_of_Z 5
  | called ev :: rest =>
      match ev with
      | setPointSize l v =>
          if String.eqb l label then as_number v else last_size label rest
      | _ => last_size label rest
      end
  end.

Fixpoint last_thickness (label : string) (log : list Called) : number :=
  match log with
  | [] => number_of_Z 5
  | called ev :: rest =>
      match ev with
      | setLineThickness l v =>
          if String.eqb l label then as_number v
          else last_thickness label rest
      | _ => last_thickness label rest
      end
  end.

Definition reply (R : Set) (ev : Event R) (log : list Called) : R :=
  match ev in Event R return R with
  | evalCommandGetLabels _ => "B"
  | getObjectType label =>
      if String.eqb label "n" then "numeric" else "point"
  | getVisible label => last_visible label log
  | setVisible _ _ => tt
  | isIndependent _ => true
  | getColor _ => "#000000"
  | setColor _ _ => tt
  | getPointSize label => last_size label log
  | setPointSize _ _ => tt
  | getLineThickness label => last_thickness label log
  | setLineThickness _ _ => tt
  | tp_setattr _ _ _ => None
  | callsim _ _ => inr SkNone
  | nb_bool _ => inr true
  | tp_setattr_cast _ _ _ => None
  end.

Definition answer (R : Set) (ev : Event R) (log : list Called)
  : R * list Called :=
  (reply R ev log, called ev :: log).

End Store.

(** ** A run time whose [color] setter refuses

    Like [Demo], except that setting the attribute ["color"] raises. *)

Module Refuser.

Definition refusal : PyErr := mkErr TypeError "color must be a string".

Definition answer (R : Set) (ev : Event R) (calls : nat) : R * nat :=
  (match ev in Event R return R -> R with
   | tp_setattr _ name _ =>
       fun r => if String.eqb name "color" then Some refusal else r
   | _ => fun r => r
   end (Demo.reply R ev), S calls).

End Refuser.

(** * Properties *)

(** ** The encoded literal *)

Lemma split_lacks (c : ascii) (s : string) :
  Js.lacks c s = true -> Js.split c s = [s].
Proof.
  induction s as [|d s IH]; simpl; [reflexivity|].
  intros H. apply andb_prop in H as [Hd Hs].
  apply negb_true_iff in Hd. rewrite Hd, (IH Hs). reflexivity.
Qed.

Lemma split_at_separator (c : ascii) (a b : string) :
  Js.lacks c a = true -> Js.lacks c b = true ->
  Js.split c (a ++ String c b) = [a; b].
Proof.
  intros Ha Hb. induction a as [|d a IH]; simpl.
  - rewrite Ascii.eqb_refl, (split_lacks _ _ Hb). reflexivity.
  - simpl in Ha. apply andb_prop in Ha as [Hd Ha].
    apply negb_true_iff in Hd. rewrite Hd, (IH Ha). reflexivity.
Qed.

Lemma lacks_app (c : ascii) (a b : string) :
  Js.lacks c (a ++ b) = Js.lacks c a && Js.lacks c b.
Proof.
  induction a as [|d a IH]; simpl; [reflexivity|].
  rewrite IH. apply andb_assoc.
Qed.

Lemma lacks_e_uint (d : Decimal.uint) :
  Js.lacks "e" (NilEmpty.string_of_uint d) = true.
Proof. induction d; simpl; auto. Qed.

Lemma lacks_e_digits (m : N) : Js.lacks "e" (digits_of m) = true.
Proof.
  unfold digits_of, NilZero.string_of_uint.
  destruct (N.to_uint m) eqn:E; try reflexivity;
    rewrite <- E; apply lacks_e_uint.
Qed.

Lemma lacks_e_sig (neg : bool) (m : N) : Js.lacks "e" (sig_text neg m) = true.
Proof.
  unfold sig_text. pose proof (lacks_e_digits m) as H.
  destruct (digits_of m) as [|d [|d' rest]];
    rewrite lacks_app; (apply andb_true_intro; split);
    try (destruct (neg && negb (N.eqb m 0)); reflexivity);
    try reflexivity.
  - exact H.
  - simpl in H |- *. apply andb_prop in H as [-> H]. exact H.
Qed.

Lemma lacks_e_exp (e : Z) : Js.lacks "e" (exp_text e) = true.
Proof.
  unfold exp_text. rewrite lacks_app, lacks_e_digits.
  destruct (e <? 0)%Z; reflexivity.
Qed.

(** On a finite number, [toExponential] prints one ["e"], and the literal
    is built from what stands before and after it. *)
Lemma strOfNumber_finite (neg : bool) (m : N) (e : Z) :
  strOfNumber (Finite neg m e)
  = "(" ++ sig_text neg m ++ "*10^(" ++ exp_text e ++ "))".
Proof.
  unfold strOfNumber, encode_parts, toExponential.
  change (sig_text neg m ++ "e" ++ exp_text e)
    with (sig_text neg m ++ String "e" (exp_text e)).
  rewrite split_at_separator by (apply lacks_e_sig || apply lacks_e_exp).
  reflexivity.
Qed.

(** The literal of a finite number holds no ["e"]: it is never in
    exponential notation. *)
Lemma strOfNumber_no_exponential (neg : bool) (m : N) (e : Z) :
  Js.lacks "e" (strOfNumber (Finite neg m e)) = true.
Proof.
  rewrite strOfNumber_finite.
  change ("(" ++ sig_text neg m ++ "*10^(" ++ exp_text e ++ "))")
    with (String "(" (sig_text neg m ++ "*10^(" ++ exp_text e ++ "))")).
  simpl Js.lacks at 1. rewrite !lacks_app, lacks_e_sig, lacks_e_exp.
  reflexivity.
Qed.

Ltac prog_simpl :=
  unfold outcome, trace, world_after, mbind, prog_bind, trigger, evalCmd in *;
  simpl in *.

Example strOfNumber_30 : strOfNumber (number_of_Z 30) = "(3*10^(+1))".
Proof. reflexivity. Qed.

Example strOfNumber_small :
  strOfNumber (Finite false 41693084667370053 (-38))
  = "(4.1693084667370053*10^(-38))".
Proof. reflexivity. Qed.

Example strOfNumber_neg : strOfNumber (number_of_Z (-1250)) = "(-1.25*10^(+3))".
Proof. reflexivity. Qed.

Example strOfNumber_zero : strOfNumber (number_of_Z 0) = "(0*10^(+0))".
Proof. reflexivity. Qed.

Example strOfNumber_nan : strOfNumber NaN = "(NaN*10^(undefined))".
Proof. reflexivity. Qed.

(** ** [numberValueOrLabel] *)

(** C2, as the code has it: a wrapped object that the engine reports as
    ['numeric'] gives its label; otherwise a host number whose payload is
    a JavaScript number gives its encoded literal; what is neither a
    numeric object nor a host number raises a RuntimeError with the fixed
    text "internal error: not Number or number", which names no role. *)
Theorem numberValueOrLabel_coercion
    {W : Type} (answer : forall R : Set, Event R -> W -> R * W)
    (x : SkObject) (w : W) :
  (forall o, x = SkGgb o ->
     (answer _ (getObjectType (ggbLabel o)) w).1 = "numeric" ->
     outcome answer (numberValueOrLabel x) w = Returned (ggbLabel o))
  /\ (forall v : number, checkNumber x = Some (Num v) ->
        run answer (numberValueOrLabel x) w = ([], Returned (strOfNumber v), w))
  /\ ((forall o, x = SkGgb o ->
         (answer _ (getObjectType (ggbLabel o)) w).1 <> "numeric") ->
      checkNumber x = None ->
      outcome answer (numberValueOrLabel x) w = Raised internalError).
Proof.
  repeat split.
  - intros o -> Htype. prog_simpl.
    destruct (answer _ (getObjectType (ggbLabel o)) w) as [got w1].
    simpl in Htype. subst got. reflexivity.
  - intros v Hv. destruct x; try discriminate; simpl in Hv;
      inversion Hv; subst; reflexivity.
  - intros Htype Hnum. destruct x; try discriminate; try reflexivity.
    specialize (Htype o eq_refl). prog_simpl.
    destruct (answer _ (getObjectType (ggbLabel o)) w) as [got w1].
    simpl in Htype. apply String.eqb_neq in Htype. rewrite Htype.
    reflexivity.
Qed.

Lemma numberValueOrLabel_coercion_witness :
  outcome Demo.answer (numberValueOrLabel (SkGgb Demo.number_n)) 0
    = Returned "n"
  /\ run Demo.answer (numberValueOrLabel (SkFloat (Finite false 15 0))) 0
    = ([], Returned "(1.5*10^(+0))", 0)
  /\ outcome Demo.answer (numberValueOrLabel (SkGgb Demo.point_A)) 0
    = Raised internalError.
Proof.
  split; [|split].
  - apply (proj1 (numberValueOrLabel_coercion
                    Demo.answer (SkGgb Demo.number_n) 0) Demo.number_n);
      reflexivity.
  - exact (proj1 (proj2 (numberValueOrLabel_coercion
                    Demo.answer (SkFloat (Finite false 15 0)) 0))
                  (Finite false 15 0) eq_refl).
  - apply (proj2 (proj2 (numberValueOrLabel_coercion
                    Demo.answer (SkGgb Demo.point_A) 0))).
    + intros o [= <-]. vm_compute. discriminate.
    + reflexivity.
Defined.

(** C2 fails as stated: a string is neither a numeric object nor a
    number, and what is raised for it is not a TypeError. *)
Lemma numberValueOrLabel_raises_RuntimeError :
  numberValueOrLabel (SkStr "abc") = Throw internalError
  /\ err_kind internalError <> TypeError
  /\ forall msg,
       numberValueOrLabel (SkStr "abc") <> Throw (mkErr TypeError msg).
Proof.
  split; [reflexivity|]. split; [discriminate|].
  intros msg. vm_compute. discriminate.
Qed.

(** ** The shared properties *)

Section Properties.

Variable parseColorOrFail : string -> PyErr + list number.
Context {W : Type} (answer : forall R : Set, Event R -> W -> R * W).

Let getsets := sharedGetSets parseColorOrFail.

(** The setter of [size] hands any number to the engine as it is. *)
Lemma size_set_number (this : SkGgbObject) (pySize : SkObject) (v : Payload) (w : W) :
  checkNumber pySize = Some v ->
  trace answer (GetSets.set (GetSets.size getsets) this pySize) w
    = [called (setPointSize (ggbLabel this) v)]
  /\ outcome answer (GetSets.set (GetSets.size getsets) this pySize) w
    = Returned tt.
Proof.
  intros Hv. prog_simpl. unfold throwIfNotNumber. rewrite Hv. simpl.
  destruct (answer _ (setPointSize (ggbLabel this) v) w) as [[] w1].
  split; reflexivity.
Qed.

(** C3, at the inputs where the code fails it: setting [size] to [0] or
    to [10] raises nothing, and the engine mutator is called with that
    value. *)
Theorem size_set_0_and_10_reach_engine (this : SkGgbObject) (w : W) :
  (trace answer
     (GetSets.set (GetSets.size getsets) this (SkInt (number_of_Z 0))) w
     = [called (setPointSize (ggbLabel this) (number_of_Z 0))]
   /\ outcome answer
     (GetSets.set (GetSets.size getsets) this (SkInt (number_of_Z 0))) w
     = Returned tt)
  /\ (trace answer
     (GetSets.set (GetSets.size getsets) this (SkInt (number_of_Z 10))) w
     = [called (setPointSize (ggbLabel this) (number_of_Z 10))]
   /\ outcome answer
     (GetSets.set (GetSets.size getsets) this (SkInt (number_of_Z 10))) w
     = Returned tt).
Proof. split; apply size_set_number; reflexivity. Qed.

(** What is not a number is refused before the engine is called. *)
Lemma size_set_not_number (this : SkGgbObject) (pySize : SkObject) :
  checkNumber pySize = None ->
  GetSets.set (GetSets.size getsets) this pySize
  = Throw (mkErr TypeError "size must be a number must be a number").
Proof.
  intros Hv. prog_simpl. unfold throwIfNotNumber. rewrite Hv. reflexivity.
Qed.

(** C9, as the code has it: the setter of [is_visible] has no type check.
    It takes the truth value of what it is given and hands it to the
    engine's visibility mutator, in one call.  No built-in value makes it
    raise.  The truth value of an instance of a class of the script is
    what its [__bool__] or [__len__] returns; when that call raises, the
    setter raises the same exception and the engine is not called. *)
Theorem is_visible_set_truthiness
    (this : SkGgbObject) (pyIsVisible : SkObject) (w : W) :
  (forall b, truthiness pyIsVisible = Some b ->
     trace answer
       (GetSets.set (GetSets.is_visible getsets) this pyIsVisible) w
     = [called (setVisible (ggbLabel this) b)]
     /\ outcome answer
          (GetSets.set (GetSets.is_visible getsets) this pyIsVisible) w
        = Returned tt)
  /\ (truthiness pyIsVisible = None ->
      match (answer _ (nb_bool pyIsVisible) w).1 with
      | inr b =>
          trace answer
            (GetSets.set (GetSets.is_visible getsets) this pyIsVisible) w
          = [called (nb_bool pyIsVisible);
             called (setVisible (ggbLabel this) b)]
          /\ outcome answer
               (GetSets.set (GetSets.is_visible getsets) this pyIsVisible) w
             = Returned tt
      | inl e =>
          trace answer
            (GetSets.set (GetSets.is_visible getsets) this pyIsVisible) w
          = [called (nb_bool pyIsVisible)]
          /\ outcome answer
               (GetSets.set (GetSets.is_visible getsets) this pyIsVisible) w
             = Raised e
      end).
Proof.
  split.
  - intros b Hb. prog_simpl. unfold isTrue. rewrite Hb. simpl.
    destruct (answer _ (setVisible (ggbLabel this) b) w) as [[] w1].
    split; reflexivity.
  - intros Hnone. prog_simpl. unfold isTrue. rewrite Hnone. prog_simpl.
    destruct (answer _ (nb_bool pyIsVisible) w) as [[e|b] w1]; simpl.
    + split; reflexivity.
    + destruct (answer _ (setVisible (ggbLabel this) b) w1) as [[] w2].
      split; reflexivity.
Qed.

End Properties.

Lemma is_visible_set_truthiness_witness :
  (trace Demo.answer
     (GetSets.set (GetSets.is_visible (sharedGetSets Demo.parseColorOrFail))
                  Demo.point_A (SkStr "no")) 0
   = [called (setVisible "A" true)]
   /\ outcome Demo.answer
        (GetSets.set (GetSets.is_visible (sharedGetSets Demo.parseColorOrFail))
                     Demo.point_A (SkStr "no")) 0
      = Returned tt)
  /\ (trace Demo.answer
        (GetSets.set (GetSets.is_visible (sharedGetSets Demo.parseColorOrFail))
                     Demo.point_A (SkInstance 1)) 0
      = [called (nb_bool (SkInstance 1)); called (setVisible "A" true)]
      /\ outcome Demo.answer
           (GetSets.set
              (GetSets.is_visible (sharedGetSets Demo.parseColorOrFail))
              Demo.point_A (SkInstance 1)) 0
         = Returned tt).
Proof.
  split.
  - apply (proj1 (is_visible_set_truthiness Demo.parseColorOrFail Demo.answer
                    Demo.point_A (SkStr "no") 0) true).
    reflexivity.
  - apply (proj2 (is_visible_set_truthiness Demo.parseColorOrFail Demo.answer
                    Demo.point_A (SkInstance 1) 0)).
    reflexivity.
Defined.

(** C9 fails as stated: the setter raises for an instance whose
    [__bool__] raises, and the engine is then not called. *)
Lemma is_visible_set_raises :
  run Demo.answer
      (GetSets.set (GetSets.is_visible (sharedGetSets Demo.parseColorOrFail))
                   Demo.point_A (SkInstance 13)) 0
  = ([called (nb_bool (SkInstance 13))], Raised Demo.boom, 1).
Proof. reflexivity. Qed.

(** ** [Rotate] *)

(** C8: called with other than two arguments, among them the three that
    its own message announces, [Rotate] raises its TypeError and calls
    nothing, so no command reaches the engine. *)
Theorem Rotate_arity
    (assembledCommand : string -> list string -> string)
    (registry : Registry) (args : list SkObject) (h : Heap) :
  length args <> 2 ->
  Rotate assembledCommand registry args h = Throw badArgsError
  /\ err_kind badArgsError = TypeError
  /\ forall (W : Type) (answer : forall R : Set, Event R -> W -> R * W) (w : W),
       run answer (Rotate assembledCommand registry args h) w
       = ([], Raised badArgsError, w).
Proof.
  intros Hlen.
  assert (Rotate assembledCommand registry args h = Throw badArgsError) as E.
  { destruct args as [|a0 [|a1 [|a2 rest]]]; try reflexivity.
    simpl in Hlen. congruence. }
  rewrite E. repeat split.
Qed.

Lemma Rotate_arity_witness :
  Rotate (fun name args => name ++ "(" ++ Js.join "," args ++ ")")
         Demo.registry
         [SkGgb Demo.point_A; SkInt (number_of_Z 30); SkGgb Demo.point_A]
         Demo.heap
  = Throw badArgsError.
Proof.
  apply (Rotate_arity _ Demo.registry
           [SkGgb Demo.point_A; SkInt (number_of_Z 30); SkGgb Demo.point_A]
           Demo.heap).
  simpl. lia.
Defined.

(** ** [with_properties] *)

Lemma kwargs_of_length (pairs : list (string * SkObject)) :
  length (kwargs_of pairs) = 2 * length pairs.
Proof.
  induction pairs as [|[name value] rest IH]; [reflexivity|].
  change (kwargs_of ((name, value) :: rest))
    with (KwName name :: KwValue value :: kwargs_of rest).
  simpl length. rewrite IH. lia.
Qed.

Lemma kwargs_of_even (pairs : list (string * SkObject)) :
  length (kwargs_of pairs) mod 2 = 0.
Proof.
  rewrite kwargs_of_length, Nat.mul_comm. apply Nat.Div0.mod_mul.
Qed.

Lemma with_properties_kwargs
    (this : SkGgbObject) (pairs : list (string * SkObject)) :
  with_properties this [] (Some (kwargs_of pairs))
  = bind (setattr_loop (SkGgb this) (kwargs_of pairs))
         (fun _ => Ret (SkGgb this)).
Proof.
  unfold with_properties, withPropertiesFromNameValuePairs.
  change (default [] (Some (kwargs_of pairs))) with (kwargs_of pairs).
  rewrite kwargs_of_even. reflexivity.
Qed.

Section WithProperties.

Context {W : Type} (answer : forall R : Set, Event R -> W -> R * W).

Lemma setattr_loop_calls (obj : SkObject) (pairs : list (string * SkObject)) :
  forall w : W,
    (exists k, trace answer (setattr_loop obj (kwargs_of pairs)) w
               = map (setattr_call obj) (take k pairs))
    /\ match first_refusal answer obj pairs w with
       | None =>
           trace answer (setattr_loop obj (kwargs_of pairs)) w
             = map (setattr_call obj) pairs
           /\ outcome answer (setattr_loop obj (kwargs_of pairs)) w
             = Returned tt
       | Some e =>
           outcome answer (setattr_loop obj (kwargs_of pairs)) w = Raised e
       end.
Proof.
  induction pairs as [|[name value] rest IH]; intros w.
  - split; [exists 0|]; repeat split.
  - specialize (IH (answer _ (tp_setattr obj name value) w).2).
    prog_simpl.
    destruct (answer _ (tp_setattr obj name value) w) as [[e|] w1]; simpl in *.
    + split; [exists 1|]; reflexivity.
    + destruct (run answer (setattr_loop obj (kwargs_of rest)) w1)
        as [[tr out] w2] eqn:E; simpl in *.
      destruct IH as [[k Hk] IH]. split.
      * exists (S k). simpl. rewrite Hk. reflexivity.
      * destruct (first_refusal answer obj rest w1); [exact IH|].
        destruct IH as [-> ->]. split; reflexivity.
Qed.

Lemma run_bind_ret {A B : Type} (p : Prog A) (b : B) (w : W) :
  trace answer (bind p (fun _ => Ret b)) w = trace answer p w
  /\ outcome answer (bind p (fun _ => Ret b)) w
     = match outcome answer p w with
       | Returned _ => Returned b
       | Raised e => Raised e
       end.
Proof.
  revert w. induction p as [a|e|R ev k IH]; intros w; try (split; reflexivity).
  prog_simpl. destruct (answer R ev w) as [r w1].
  specialize (IH r w1).
  destruct (run answer (k r) w1) as [[tr out] w2].
  destruct (run answer (bind (k r) (fun _ => Ret b)) w1) as [[tr' out'] w2'].
  simpl in *. destruct IH as [-> ->]. split; reflexivity.
Qed.

(** C5: [with_properties(name=value, ...)] calls the setters of the
    named properties one after the other, in the order given and
    nothing else; when none of them raises, every one has been called
    and the value returned is the very object the method was called
    on; the exception of a setter ends the call. *)
Theorem with_properties_in_order
    (this : SkGgbObject) (pairs : list (string * SkObject)) (w : W) :
  (exists k, trace answer (with_properties this [] (Some (kwargs_of pairs))) w
             = map (setattr_call (SkGgb this)) (take k pairs))
  /\ match first_refusal answer (SkGgb this) pairs w with
     | None =>
         trace answer (with_properties this [] (Some (kwargs_of pairs))) w
           = map (setattr_call (SkGgb this)) pairs
         /\ outcome answer
              (with_properties this [] (Some (kwargs_of pairs))) w
           = Returned (SkGgb this)
     | Some e =>
         outcome answer (with_properties this [] (Some (kwargs_of pairs))) w
           = Raised e
     end.
Proof.
  rewrite with_properties_kwargs.
  destruct (run_bind_ret (setattr_loop (SkGgb this) (kwargs_of pairs))
              (SkGgb this) w) as [Htr Hout].
  rewrite Htr, Hout.
  destruct (setattr_loop_calls (SkGgb this) pairs w) as [Hk H].
  split; [exact Hk|].
  destruct (first_refusal answer (SkGgb this) pairs w); [rewrite H; reflexivity|].
  destruct H as [-> ->]. split; reflexivity.
Qed.

End WithProperties.

Example with_properties_two :
  run Demo.answer
      (with_properties Demo.point_A []
         (Some (kwargs_of [("size", SkInt (number_of_Z 5));
                           ("color", SkStr "red")]))) 0
  = ([called (tp_setattr (SkGgb Demo.point_A) "size" (SkInt (number_of_Z 5)));
      called (tp_setattr (SkGgb Demo.point_A) "color" (SkStr "red"))],
     Returned (SkGgb Demo.point_A), 2).
Proof. reflexivity. Qed.

Example with_properties_positional :
  with_properties Demo.point_A [SkNone] None
  = Throw (mkErr TypeError "only kwargs").
Proof. reflexivity. Qed.

Example with_properties_no_kwargs :
  with_properties Demo.point_A [] None = Ret (SkGgb Demo.point_A).
Proof. reflexivity. Qed.

(** ** [free_copy] *)

Lemma fresh_not_allocated (h : Heap) : h !! fresh (dom h) = None.
Proof. apply not_elem_of_dom, is_fresh. Qed.

(** With any engine, [free_copy()] has it evaluate the copy command on
    the label of its object, asks it for the type of the label that comes
    back, and returns the wrapper that the class registered for that type
    makes over that label: an object that was not in the heap before, so
    not the one copied, with no update handler of its own. *)
Theorem free_copy_wraps_engine_copy
    {W : Type} (answer : forall R : Set, Event R -> W -> R * W)
    (registry : Registry) (this : SkGgbObject) (h : Heap) (w : W)
    (cls : string) :
  let cmd := "CopyFreeObject(" ++ ggbLabel this ++ ")" in
  let copied := answer _ (evalCommandGetLabels cmd) w in
  let typed := answer _ (getObjectType copied.1) copied.2 in
  let new := mkGgb (fresh (dom h)) cls copied.1 in
  registry !! typed.1 = Some cls ->
  run answer (free_copy registry this h) w
    = ([called (evalCommandGetLabels cmd); called (getObjectType copied.1)],
       Returned (SkGgb new, <[objId new := []]> h),
       typed.2)
  /\ h !! objId new = None
  /\ (is_Some (h !! objId this) -> objId new <> objId this)
  /\ (is_Some (h !! objId this) ->
      <[objId new := []]> h !! objId this = h !! objId this).
Proof.
  intros cmd copied typed new Hcls.
  assert (h !! objId new = None) as Hnew by apply fresh_not_allocated.
  assert (is_Some (h !! objId this) -> objId new <> objId this) as Hne.
  { intros [hs Hhs] E. rewrite E in Hnew. congruence. }
  repeat split; try assumption.
  - subst cmd copied typed new. prog_simpl.
    destruct (answer _ (evalCommandGetLabels
                          ("CopyFreeObject(" ++ ggbLabel this ++ ")")) w)
      as [label w1]; simpl in *.
    destruct (answer _ (getObjectType label) w1) as [tag w2]; simpl in *.
    rewrite Hcls. reflexivity.
  - intros Hthis. apply lookup_insert_ne. auto.
Qed.

Lemma free_copy_wraps_engine_copy_witness :
  run Demo.answer (free_copy Demo.registry Demo.point_A Demo.heap) 0
  = ([called (evalCommandGetLabels "CopyFreeObject(A)");
      called (getObjectType "B")],
     Returned (SkGgb (mkGgb (fresh (dom Demo.heap)) "Point" "B"),
               <[fresh (dom Demo.heap) := []]> Demo.heap),
     2).
Proof.
  apply (free_copy_wraps_engine_copy
           Demo.answer Demo.registry Demo.point_A Demo.heap 0 "Point").
  reflexivity.
Defined.

(** ** The update listeners *)

(** C7: two listeners registered on an object that had none are, when an
    update is fired once, each called once, the first registered first,
    with the arguments fired; the exception of a handler ends the pass
    and is the outcome of the firing. *)
Theorem fire_two_listeners
    {W : Type} (answer : forall R : Set, Event R -> W -> R * W)
    (wrapper : SkGgbObject) (f1 f2 : SkObject) (args : list SkObject)
    (h : Heap) (w : W) :
  default [] (h !! objId wrapper) = [] ->
  let h2 := register wrapper f2 (register wrapper f1 h) in
  let r1 := answer _ (callsim f1 args) w in
  let r2 := answer _ (callsim f2 args) r1.2 in
  h2 !! objId wrapper = Some [f1; f2]
  /\ run answer (fireUpdateEvents wrapper args h2) w
     = match r1.1, r2.1 with
       | inr _, inr _ =>
           ([called (callsim f1 args); called (callsim f2 args)],
            Returned tt, r2.2)
       | inr _, inl e =>
           ([called (callsim f1 args); called (callsim f2 args)],
            Raised e, r2.2)
       | inl e, _ => ([called (callsim f1 args)], Raised e, r1.2)
       end.
Proof.
  intros Hnone h2 r1 r2.
  assert (h2 !! objId wrapper = Some [f1; f2]) as Hh2.
  { subst h2. unfold register.
    rewrite !lookup_insert_eq. simpl. rewrite Hnone. reflexivity. }
  split; [exact Hh2|].
  unfold fireUpdateEvents. rewrite Hh2. subst r1 r2. prog_simpl.
  destruct (answer _ (callsim f1 args) w) as [[e1|v1] w1]; simpl;
    [reflexivity|].
  destruct (answer _ (callsim f2 args) w1) as [[e2|v2] w2]; reflexivity.
Qed.

Lemma fire_two_listeners_witness :
  run Demo.answer
      (fireUpdateEvents Demo.point_A [SkStr "moved"]
         (register Demo.point_A (SkFunc 2)
            (register Demo.point_A (SkFunc 1) Demo.heap))) 0
  = ([called (callsim (SkFunc 1) [SkStr "moved"]);
      called (callsim (SkFunc 2) [SkStr "moved"])],
     Returned tt, 2).
Proof.
  apply (fire_two_listeners Demo.answer Demo.point_A (SkFunc 1) (SkFunc 2)
           [SkStr "moved"] Demo.heap 0).
  reflexivity.
Defined.

Example fire_handler_raises :
  run Demo.answer
      (fireUpdateEvents Demo.point_A []
         (register Demo.point_A (SkFunc 2)
            (register Demo.point_A (SkFunc 13) Demo.heap))) 0
  = ([called (callsim (SkFunc 13) [])], Raised Demo.boom, 1).
Proof. reflexivity. Qed.

(** ** The commands submitted for evaluation *)

Lemma last_char_app (a b : string) :
  b <> "" -> Js.last_char (a ++ b) = Js.last_char b.
Proof.
  intros Hb. induction a as [|c a IH]; [reflexivity|].
  simpl. rewrite IH. destruct (a ++ b) eqn:E; [|reflexivity].
  destruct a; simpl in E; [contradiction|discriminate].
Qed.

Lemma bracket_form_last (cmd : string) :
  bracket_form cmd -> Js.last_char cmd = Some "]"%char.
Proof.
  intros (name & args & ->).
  rewrite !last_char_app; try reflexivity; try discriminate.
  destruct (Js.join "," args); discriminate.
Qed.

(** C4 fails as stated: the command that [free_copy] submits for the
    object ["A"] is [CopyFreeObject(A)], written with round brackets. *)
Lemma free_copy_command_round_brackets :
  commands (trace Demo.answer
              (free_copy Demo.registry Demo.point_A Demo.heap) 0)
    = ["CopyFreeObject(A)"]
  /\ ~ bracket_form "CopyFreeObject(A)".
Proof.
  split; [reflexivity|].
  intros H. apply bracket_form_last in H. discriminate.
Qed.

Section Commands.

Context {W : Type} (answer : forall R : Set, Event R -> W -> R * W).
Variable assembledCommand : string -> list string -> string.
Variable registry : Registry.

Lemma free_copy_commands (this : SkGgbObject) (h : Heap) (w : W) :
  commands (trace answer (free_copy registry this h) w)
  = ["CopyFreeObject(" ++ ggbLabel this ++ ")"].
Proof.
  prog_simpl.
  destruct (answer _ (evalCommandGetLabels
                        ("CopyFreeObject(" ++ ggbLabel this ++ ")")) w)
    as [label w1]; simpl.
  destruct (answer _ (getObjectType label) w1) as [tag w2]; simpl.
  destruct (registry !! tag); reflexivity.
Qed.

Lemma Rotate_commands (args : list SkObject) (h : Heap) (w : W) (cmd : string) :
  In cmd (commands (trace answer (Rotate assembledCommand registry args h) w)) ->
  exists (obj : SkGgbObject) (pyAngle : SkObject) (angleArg : string),
    args = [SkGgb obj; pyAngle]
    /\ cmd = assembledCommand "Rotate" [ggbLabel obj; angleArg]
    /\ ((exists g, pyAngle = SkGgb g /\ angleArg = ggbLabel g)
        \/ (exists v : number, checkNumber pyAngle = Some (Num v)
                      /\ angleArg = strOfNumber v)).
Proof.
  destruct args as [|arg0 [|pyAngle [|arg2 rest]]]; try contradiction.
  destruct arg0 as [| | | | | |obj|]; try contradiction.
  intros Hin. exists obj, pyAngle.
  prog_simpl.
  unfold throwIfNotPyOrGgbNumber, isPythonOrGgbNumber in Hin.
  destruct (checkNumber pyAngle) as [[v|z]|] eqn:Hnum.
  - exists (strOfNumber v).
    assert (_isGgbObject pyAngle = None) as Hno
        by (destruct pyAngle; try reflexivity; discriminate).
    unfold numberValueOrLabel, isGgbObject in Hin.
    rewrite Hno in Hin. prog_simpl. rewrite Hnum in Hin. simpl in Hin.
    destruct (answer _ (evalCommandGetLabels
                (assembledCommand "Rotate"
                   [ggbLabel obj; encode_parts (toExponential v)])) w)
      as [label w1]; simpl in Hin.
    destruct (answer _ (getObjectType label) w1) as [tag w2]; simpl in Hin.
    destruct (registry !! tag); simpl in Hin; destruct Hin as [<-|[]];
      (repeat split; right; exists v; split; reflexivity).
  - exfalso.
    assert (_isGgbObject pyAngle = None) as Hno
        by (destruct pyAngle; try reflexivity; discriminate).
    unfold numberValueOrLabel, isGgbObject in Hin.
    rewrite Hno in Hin. prog_simpl. rewrite Hnum in Hin. exact Hin.
  - destruct pyAngle as [| | | | | |g|]; try contradiction;
      try discriminate.
    exists (ggbLabel g). unfold numberValueOrLabel in Hin. prog_simpl.
    destruct (answer _ (getObjectType (ggbLabel g)) w) as [got1 w1];
      simpl in Hin.
    destruct (String.eqb got1 "numeric"); simpl in Hin; [|contradiction].
    destruct (answer _ (getObjectType (ggbLabel g)) w1) as [got2 w2];
      simpl in Hin.
    destruct (String.eqb got2 "numeric"); simpl in Hin; [|contradiction].
    destruct (answer _ (evalCommandGetLabels
                (assembledCommand "Rotate" [ggbLabel obj; ggbLabel g])) w2)
      as [label w3]; simpl in Hin.
    destruct (answer _ (getObjectType label) w3) as [tag w4]; simpl in Hin.
    destruct (registry !! tag); simpl in Hin; destruct Hin as [<-|[]];
      (repeat split; left; exists g; split; reflexivity).
Qed.

(** C4, as the code has it: the one command that [free_copy] submits is
    [CopyFreeObject(label)], in round brackets, over the label of its
    object; a command that [Rotate] submits is what [assembledCommand]
    makes of ["Rotate"] and two arguments, the label of the object and,
    for the angle, the label of a wrapped object or the literal of a
    host number; the literal of a finite number is
    [(SIGNIFICAND*10^(EXPONENT))]. *)
Theorem submitted_commands :
  (forall (this : SkGgbObject) (h : Heap) (w : W),
      commands (trace answer (free_copy registry this h) w)
      = ["CopyFreeObject(" ++ ggbLabel this ++ ")"])
  /\ (forall (args : list SkObject) (h : Heap) (w : W) (cmd : string),
        In cmd (commands
                  (trace answer (Rotate assembledCommand registry args h) w)) ->
        exists (obj : SkGgbObject) (pyAngle : SkObject) (angleArg : string),
          args = [SkGgb obj; pyAngle]
          /\ cmd = assembledCommand "Rotate" [ggbLabel obj; angleArg]
          /\ ((exists g, pyAngle = SkGgb g /\ angleArg = ggbLabel g)
              \/ (exists v : number, checkNumber pyAngle = Some (Num v)
                            /\ angleArg = strOfNumber v)))
  /\ (forall (neg : bool) (m : N) (e : Z),
        strOfNumber (Finite neg m e)
        = "(" ++ sig_text neg m ++ "*10^(" ++ exp_text e ++ "))").
Proof.
  split; [exact free_copy_commands|].
  split; [exact Rotate_commands|exact strOfNumber_finite].
Qed.

End Commands.

Lemma submitted_commands_witness :
  exists (obj : SkGgbObject) (pyAngle : SkObject) (angleArg : string),
    [SkGgb Demo.point_A; SkInt (number_of_Z 30)] = [SkGgb obj; pyAngle]
    /\ "Rotate(A,(3*10^(+1)))"
       = round_brackets "Rotate" [ggbLabel obj; angleArg]
    /\ ((exists g, pyAngle = SkGgb g /\ angleArg = ggbLabel g)
        \/ (exists v : number, checkNumber pyAngle = Some (Num v)
                      /\ angleArg = strOfNumber v)).
Proof.
  apply (proj1 (proj2 (submitted_commands
                         Demo.answer round_brackets Demo.registry))
           [SkGgb Demo.point_A; SkInt (number_of_Z 30)] Demo.heap 0).
  left. reflexivity.
Defined.

Example Rotate_by_numeric_object :
  run Demo.answer
      (Rotate round_brackets Demo.registry
              [SkGgb Demo.point_A; SkGgb Demo.number_n] Demo.heap) 0
  = ([called (getObjectType "n"); called (getObjectType "n");
      called (evalCommandGetLabels "Rotate(A,n)");
      called (getObjectType "B")],
     Returned (SkGgb (mkGgb (fresh (dom Demo.heap)) "Point" "B"),
               <[fresh (dom Demo.heap) := []]> Demo.heap),
     4).
Proof. reflexivity. Qed.

Example Rotate_by_string :
  Rotate round_brackets Demo.registry
         [SkGgb Demo.point_A; SkStr "30"] Demo.heap
  = Throw (mkErr TypeError "rotation angle must be a number").
Proof. reflexivity. Qed.

(** ** The [boot] thunk *)

Module DependenciesFacts.

Import Dependencies.

Lemma boot_enter_guard (s : State) :
  bootStatus s <> idle -> boot_enter s = (s, Returned).
Proof.
  intros H. unfold boot_enter. rewrite bool_decide_eq_true_2; auto.
Qed.

Lemma count_in_flight_app (ts us : list Task) :
  count_in_flight (ts ++ us) = count_in_flight ts + count_in_flight us.
Proof. induction ts as [|t ts IH]; simpl; [reflexivity|]. rewrite IH. lia. Qed.

Lemma count_in_flight_insert (ts : list Task) (i : nat) (a : Await) (t : Task) :
  ts !! i = Some (Awaiting a) ->
  S (count_in_flight (<[i := t]> ts))
  = count_in_flight ts + (if in_flight t then 1 else 0).
Proof.
  revert i. induction ts as [|u ts IH]; intros [|i] H; try discriminate.
  - injection H as ->. simpl. lia.
  - simpl in *. specialize (IH i H).
    destruct (in_flight u), (in_flight t); lia.
Qed.

Lemma none_in_flight (ts : list Task) (i : nat) (a : Await) :
  count_in_flight ts = 0 -> ts !! i <> Some (Awaiting a).
Proof.
  revert i. induction ts as [|u ts IH]; intros [|i] H E; try discriminate.
  - injection E as ->. discriminate.
  - simpl in *. apply (IH i); [lia|exact E].
Qed.

(** One step from a guarded system: the status makes one of its moves
    and the system stays guarded. *)
Lemma step_guarded (x : Input) (sys : System) :
  guarded sys ->
  moves (bootStatus (store sys)) (bootStatus (store (step x sys)))
  /\ guarded (step x sys).
Proof.
  destruct sys as [[status api text] ts]. unfold guarded, flying. simpl.
  intros G. destruct x as [|i v]; simpl.
  - unfold boot_enter. simpl.
    destruct status; simpl; rewrite count_in_flight_app; simpl;
      (split; [unfold moves; auto|lia]).
  - destruct (ts !! i) as [[a| |]|] eqn:E; simpl;
      try (split; [left; reflexivity|exact G]).
    pose proof (count_in_flight_insert ts i a) as Hins.
    destruct status.
    + exfalso. exact (none_in_flight ts i a G E).
    + destruct v as [value|]; [destruct a|]; simpl;
        match goal with
        | |- context [<[i := ?t]> ts] => specialize (Hins t E)
        end; simpl in Hins;
        (split; [unfold moves; auto|lia]).
    + exfalso. exact (none_in_flight ts i a G E).
Qed.

Lemma initial_guarded : guarded initial.
Proof. reflexivity. Qed.

Lemma exec_guarded (xs : list Input) :
  forall sys, guarded sys -> guarded (exec xs sys).
Proof.
  induction xs as [|x xs IH]; intros sys G; [exact G|].
  apply IH, step_guarded, G.
Qed.

(** Once the status has left [idle], the guard lets no one through. *)
Lemma passes_after_start (xs : list Input) :
  forall sys,
    guarded sys -> bootStatus (store sys) <> idle -> passes xs sys = 0.
Proof.
  induction xs as [|x xs IH]; intros sys G Hidle; [reflexivity|].
  destruct (step_guarded x sys G) as [Hmove G']. simpl.
  rewrite IH; auto.
  - destruct x; simpl; [|reflexivity].
    rewrite bool_decide_eq_false_2; auto.
  - destruct Hmove as [<-|[[_ E]|[_ E]]]; auto; rewrite E; discriminate.
Qed.

Lemma passes_at_most_once (xs : list Input) :
  forall sys, guarded sys -> passes xs sys <= 1.
Proof.
  induction xs as [|x xs IH]; intros sys G; simpl; [lia|].
  destruct (step_guarded x sys G) as [Hmove G'].
  destruct (passes_guard x sys) eqn:Hp.
  - destruct x; [|discriminate]. simpl in Hp.
    apply bool_decide_eq_true_1 in Hp.
    rewrite passes_after_start; auto.
    simpl. unfold boot_enter. rewrite Hp. simpl. discriminate.
  - specialize (IH _ G'). lia.
Qed.

(** C10: [boot] is guarded.  Called when [bootStatus] is not ["idle"] it
    returns at once and leaves the state as it was; along every run
    from the initial state, whatever is dispatched and however the
    awaited promises settle, [bootStatus] only moves from [idle] to
    [running] and from [running] to [done], and [boot] gets past its
    guard at most once. *)
Theorem boot_at_most_once :
  (forall s : State, bootStatus s <> idle -> boot_enter s = (s, Returned))
  /\ (forall (xs : list Input) (x : Input),
        moves (bootStatus (store (exec xs initial)))
              (bootStatus (store (step x (exec xs initial)))))
  /\ (forall xs : list Input, passes xs initial <= 1).
Proof.
  split; [exact boot_enter_guard|]. split.
  - intros xs x.
    apply step_guarded, exec_guarded, initial_guarded.
  - intros xs. apply passes_at_most_once, initial_guarded.
Qed.

Lemma boot_at_most_once_witness :
  boot_enter (mkState running None "") = (mkState running None "", Returned).
Proof.
  apply (proj1 boot_at_most_once (mkState running None "")).
  discriminate.
Defined.

Example boot_twice :
  let xs := [dispatch_boot; dispatch_boot;
             settle 0 (Resolved ""); settle 0 (Resolved "import ggb");
             settle 0 (Resolved ""); dispatch_boot] in
  exec xs initial
    = mkSystem (mkState done None "import ggb") [Returned; Returned; Returned]
  /\ passes xs initial = 1.
Proof. split; reflexivity. Qed.

Example boot_fetch_fails :
  exec [dispatch_boot; settle 0 Failed; dispatch_boot] initial
  = mkSystem (mkState running None "") [Rejected; Returned].
Proof. reflexivity. Qed.

End DependenciesFacts.

(** * Further properties of shared.ts *)

(** ** [strOfNumber] *)

(** The literal of a finite number is an opening bracket, the
    significand, [*10^(], the signed exponent and two closing brackets,
    and holds no ["e"]. *)
Theorem strOfNumber_finite_text (neg : bool) (m : N) (e : Z) :
  strOfNumber (Finite neg m e)
  = "(" ++ sig_text neg m ++ "*10^(" ++ exp_text e ++ "))"
  /\ Js.lacks "e" (strOfNumber (Finite neg m e)) = true.
Proof.
  split; [apply strOfNumber_finite|apply strOfNumber_no_exponential].
Qed.

(** What [toExponential] prints for a number that is not finite has no
    ["e"] to split at: the exponent is [undefined] and is written so. *)
Theorem strOfNumber_not_finite (x : number) :
  (forall neg m e, x <> Finite neg m e) ->
  strOfNumber x = "(" ++ toExponential x ++ "*10^(undefined))".
Proof.
  intros H. destruct x as [|[|]|neg m e]; try reflexivity.
  exfalso. exact (H neg m e eq_refl).
Qed.

Lemma strOfNumber_not_finite_witness :
  strOfNumber (Infinity true) = "(-Infinity*10^(undefined))".
Proof.
  apply (strOfNumber_not_finite (Infinity true)). discriminate.
Defined.

(** ** Recognising wrapped objects *)

(** [everyElementIsGgbObject] holds exactly of the arrays of wrapped
    objects, the empty one among them: the narrowing to
    [Array<SkGgbObject>] is right. *)
Theorem everyElementIsGgbObject_narrows (objs : list SkObject) :
  everyElementIsGgbObject objs = true
  <-> exists os : list SkGgbObject, objs = map SkGgb os.
Proof.
  unfold everyElementIsGgbObject. induction objs as [|x objs IH]; simpl.
  - split; [exists []; reflexivity|reflexivity].
  - rewrite andb_true_iff, IH. split.
    + intros [Hx [os ->]].
      destruct x as [| | | | | |o|]; try (vm_compute in Hx; discriminate).
      exists (o :: os). reflexivity.
    + intros [[|o os] E]; [discriminate|].
      injection E as -> ->. split; [reflexivity|exists os; reflexivity].
Qed.

Section Recognising.

Context {W : Type} (answer : forall R : Set, Event R -> W -> R * W).

(** [isGgbObject] never raises and never changes the construction.  On
    what is not a wrapper it answers no and calls nothing; on a wrapper
    with no type required it answers yes and calls nothing; on a wrapper
    with a type required it asks the engine once, for the type of the
    wrapper's label, and answers yes exactly when the engine reported
    that type.  So a yes is only ever given to a wrapper whose type, if
    one was required, the engine has confirmed. *)
Theorem isGgbObject_sound
    (obj : SkObject) (requiredType : option string) (w : W) :
  (_isGgbObject obj = None ->
   run answer (isGgbObject obj requiredType) w = ([], Returned None, w))
  /\ (forall o, obj = SkGgb o -> requiredType = None ->
      run answer (isGgbObject obj requiredType) w
      = ([], Returned (Some o), w))
  /\ (forall o required, obj = SkGgb o -> requiredType = Some required ->
      trace answer (isGgbObject obj requiredType) w
      = [called (getObjectType (ggbLabel o))]
      /\ outcome answer (isGgbObject obj requiredType) w
         = Returned
             (if String.eqb (answer _ (getObjectType (ggbLabel o)) w).1
                            required
              then Some o else None))
  /\ (exists r, outcome answer (isGgbObject obj requiredType) w = Returned r)
  /\ (forall o,
        outcome answer (isGgbObject obj requiredType) w = Returned (Some o) ->
        obj = SkGgb o
        /\ forall required, requiredType = Some required ->
             (answer _ (getObjectType (ggbLabel o)) w).1 = required).
Proof.
  unfold isGgbObject, outcome, trace.
  destruct obj as [| | | | | |o|]; simpl;
    try (split; [reflexivity|];
         split; [intros ? [=]|];
         split; [intros ? ? [=]|];
         split; [eexists; reflexivity|intros ? [=]]).
  split; [discriminate|].
  destruct requiredType as [required|]; simpl.
  - prog_simpl.
    destruct (answer _ (getObjectType (ggbLabel o)) w) as [got w1] eqn:E.
    simpl.
    split; [discriminate|].
    split; [intros ? ? [= <-] [= <-]; rewrite ?E; split; reflexivity|].
    split; [eexists; reflexivity|].
    destruct (String.eqb got required) eqn:Heq; [|discriminate].
    intros ? [= <-]. split; [reflexivity|].
    intros r [= <-]. apply String.eqb_eq in Heq.
    try rewrite E; simpl; exact Heq.
  - split; [intros ? [= <-] _; reflexivity|].
    split; [discriminate|].
    split; [eexists; reflexivity|].
    intros ? [= <-]. split; [reflexivity|discriminate].
Qed.

(** [isPythonOrGgbNumber] and [numberValueOrLabel] run the same two
    tests.  Where the first says no, the second raises its internal
    error.  Where the first says yes, the second returns a text, but for
    one case: a Python int that Skulpt holds as a BigInt passes the test
    and then has no [toExponential], so that JavaScript throws.  In no
    case does [numberValueOrLabel] have a command evaluated. *)
Theorem numberValueOrLabel_domain (x : SkObject) (w : W) :
  (outcome answer (isPythonOrGgbNumber x) w = Returned true
   <-> (exists s, outcome answer (numberValueOrLabel x) w = Returned s)
       \/ (exists z, x = SkInt (Big z)
              /\ outcome answer (numberValueOrLabel x) w
                 = Raised notAFunction))
  /\ (outcome answer (isPythonOrGgbNumber x) w = Returned false
      <-> outcome answer (numberValueOrLabel x) w = Raised internalError)
  /\ commands (trace answer (numberValueOrLabel x) w) = [].
Proof.
  unfold isPythonOrGgbNumber, numberValueOrLabel, isGgbObject, internalError,
    notAFunction.
  destruct x as [| |[v|z]| | | |o|]; prog_simpl;
    try destruct (answer _ (getObjectType (ggbLabel o)) w) as [got w1];
    try destruct (String.eqb got "numeric"); simpl;
    (split; [split|split; [split|]]);
    intros; try reflexivity; try discriminate;
    try (left; eexists; reflexivity);
    try (right; eexists; split; reflexivity);
    try (exfalso;
         match goal with
         | H : _ \/ _ |- _ =>
             destruct H as [[? H]|[? [H ?]]]; discriminate H
         end).
Qed.

End Recognising.

Lemma isGgbObject_sound_witness :
  trace Demo.answer (isGgbObject (SkGgb Demo.number_n) (Some "numeric")) 0
  = [called (getObjectType "n")]
  /\ outcome Demo.answer
       (isGgbObject (SkGgb Demo.number_n) (Some "numeric")) 0
     = Returned (Some Demo.number_n).
Proof.
  apply (proj1 (proj2 (proj2 (isGgbObject_sound Demo.answer
                                (SkGgb Demo.number_n) (Some "numeric") 0)))
           Demo.number_n "numeric" eq_refl eq_refl).
Defined.

(** ** [with_properties]: refusals *)

(** Positional arguments, or keyword items that do not come in pairs, are
    refused before any setter is called. *)
Theorem with_properties_refuses_first
    (this : SkGgbObject) (args : list SkObject) (kwargs : option (list KwItem)) :
  (args <> [] ->
   with_properties this args kwargs = Throw (mkErr TypeError "only kwargs"))
  /\ (forall items,
        args = [] -> kwargs = Some items -> Nat.Odd (length items) ->
        with_properties this args kwargs
        = Throw (mkErr RuntimeError
                       "internal error: propNamesValues not in pairs")).
Proof.
  split.
  - intros H. destruct args; [contradiction|reflexivity].
  - intros items -> -> Hodd.
    assert (length items mod 2 = 1) as Hmod.
    { destruct Hodd as [k ->].
      rewrite Nat.add_comm, Nat.mul_comm, Nat.Div0.mod_add. reflexivity. }
    unfold with_properties, withPropertiesFromNameValuePairs.
    change (default [] (Some items)) with items.
    rewrite Hmod. reflexivity.
Qed.

Lemma with_properties_refuses_first_witness :
  with_properties Demo.point_A []
    (Some [KwName "size"; KwValue (SkInt (number_of_Z 5)); KwName "color"])
  = Throw (mkErr RuntimeError "internal error: propNamesValues not in pairs").
Proof.
  apply (proj2 (with_properties_refuses_first Demo.point_A [] _) _
           eq_refl eq_refl).
  exists 1. reflexivity.
Defined.

Section Stopping.

Context {W : Type} (answer : forall R : Set, Event R -> W -> R * W).

Lemma kwargs_of_cons (name : string) (value : SkObject)
    (rest : list (string * SkObject)) :
  kwargs_of ((name, value) :: rest)
  = KwName name :: KwValue value :: kwargs_of rest.
Proof. reflexivity. Qed.

Lemma setattr_loop_stops
    (obj : SkObject) (name : string) (value : SkObject) (e : PyErr)
    (post pre : list (string * SkObject)) :
  forall w : W,
    first_refusal answer obj pre w = None ->
    (answer _ (tp_setattr obj name value)
       (world_after answer (setattr_loop obj (kwargs_of pre)) w)).1 = Some e ->
    trace answer
      (setattr_loop obj (kwargs_of (pre ++ (name, value) :: post)%list)) w
    = map (setattr_call obj) (pre ++ [(name, value)])%list
    /\ outcome answer
         (setattr_loop obj (kwargs_of (pre ++ (name, value) :: post)%list)) w
       = Raised e.
Proof.
  induction pre as [|[n0 v0] pre IH]; intros w Hpre Hfail.
  - simpl app. rewrite kwargs_of_cons. prog_simpl.
    destruct (answer _ (tp_setattr obj name value) w) as [r w1].
    simpl in Hfail. subst r. split; reflexivity.
  - simpl app. rewrite kwargs_of_cons.
    rewrite kwargs_of_cons in Hfail.
    specialize (IH (answer _ (tp_setattr obj n0 v0) w).2).
    prog_simpl.
    destruct (answer _ (tp_setattr obj n0 v0) w) as [[e0|] w1];
      [discriminate|].
    simpl in *.
    destruct (run answer (setattr_loop obj (kwargs_of pre)) w1)
      as [[tr0 out0] w2]; simpl in *.
    destruct (IH Hpre Hfail) as [Htr Hout].
    destruct (run answer
                (setattr_loop obj (kwargs_of (pre ++ (name, value) :: post)))
                w1) as [[tr out] w3]; simpl in *.
    subst tr out. split; reflexivity.
Qed.

(** When a setter raises, [with_properties] stops there: the setters
    before it have been applied and stay applied, the ones after it are
    never called, and the exception is the outcome of the call. *)
Theorem with_properties_stops_at_refusal
    (this : SkGgbObject) (name : string) (value : SkObject) (e : PyErr)
    (pre post : list (string * SkObject)) (w : W) :
  first_refusal answer (SkGgb this) pre w = None ->
  (answer _ (tp_setattr (SkGgb this) name value)
     (world_after answer (setattr_loop (SkGgb this) (kwargs_of pre)) w)).1
  = Some e ->
  trace answer
    (with_properties this []
       (Some (kwargs_of (pre ++ (name, value) :: post)%list))) w
  = map (setattr_call (SkGgb this)) (pre ++ [(name, value)])%list
  /\ outcome answer
       (with_properties this []
          (Some (kwargs_of (pre ++ (name, value) :: post)%list))) w
     = Raised e.
Proof.
  intros Hpre Hfail. rewrite with_properties_kwargs.
  destruct (run_bind_ret answer
              (setattr_loop (SkGgb this)
                 (kwargs_of (pre ++ (name, value) :: post)%list))
              (SkGgb this) w) as [-> ->].
  destruct (setattr_loop_stops (SkGgb this) name value e post pre w Hpre Hfail)
    as [-> ->].
  split; reflexivity.
Qed.

End Stopping.

Lemma with_properties_stops_at_refusal_witness :
  trace Refuser.answer
    (with_properties Demo.point_A []
       (Some (kwargs_of [("size", SkInt (number_of_Z 5));
                         ("color", SkInt (number_of_Z 3));
                         ("is_visible", SkBool false)]))) 0
  = [called (tp_setattr (SkGgb Demo.point_A) "size" (SkInt (number_of_Z 5)));
     called (tp_setattr (SkGgb Demo.point_A) "color" (SkInt (number_of_Z 3)))]
  /\ outcome Refuser.answer
       (with_properties Demo.point_A []
          (Some (kwargs_of [("size", SkInt (number_of_Z 5));
                            ("color", SkInt (number_of_Z 3));
                            ("is_visible", SkBool false)]))) 0
     = Raised Refuser.refusal.
Proof.
  apply (with_properties_stops_at_refusal Refuser.answer Demo.point_A
           "color" (SkInt (number_of_Z 3)) Refuser.refusal
           [("size", SkInt (number_of_Z 5))] [("is_visible", SkBool false)] 0);
    reflexivity.
Defined.

(** ** The shared properties: setters and getters *)

Section Setters.

Variable parseColorOrFail : string -> PyErr + list number.
Context {W : Type} (answer : forall R : Set, Event R -> W -> R * W).

Let getsets := sharedGetSets parseColorOrFail.

(** The setter of [color] calls the engine only with a colour that was
    read: what is not a string raises the TypeError
    "color must be a string", a string that [parseColorOrFail] refuses
    raises the exception of [parseColorOrFail], and in both cases nothing
    is called; a string that is read is followed by one call of
    [setColor] with its components. *)
Theorem color_set_checks_first
    (this : SkGgbObject) (pyColor : SkObject) (w : W) :
  match checkString pyColor with
  | None =>
      run answer (GetSets.set (GetSets.color getsets) this pyColor) w
      = ([], Raised (mkErr TypeError "color must be a string"), w)
  | Some v =>
      match parseColorOrFail v with
      | inl e =>
          run answer (GetSets.set (GetSets.color getsets) this pyColor) w
          = ([], Raised e, w)
      | inr mRGB =>
          trace answer (GetSets.set (GetSets.color getsets) this pyColor) w
          = [called (setColor (ggbLabel this) mRGB)]
          /\ outcome answer
               (GetSets.set (GetSets.color getsets) this pyColor) w
             = Returned tt
      end
  end.
Proof.
  prog_simpl. unfold throwIfNotString.
  destruct (checkString pyColor) as [v|]; [|reflexivity]. simpl.
  destruct (parseColorOrFail v) as [e|mRGB]; [reflexivity|]. simpl.
  destruct (answer _ (setColor (ggbLabel this) mRGB) w) as [[] w1].
  split; reflexivity.
Qed.

(** The setters of [size] and of [line_thickness] check only that the
    value is a number.  Any number, whatever its value, goes to the
    engine's mutator as it is, in one call; what is not a number raises a
    TypeError, whose text repeats "must be a number", and nothing is
    called. *)
Theorem number_setters_check_type_only
    (this : SkGgbObject) (pyValue : SkObject) (w : W) :
  match checkNumber pyValue with
  | Some v =>
      (trace answer (GetSets.set (GetSets.size getsets) this pyValue) w
       = [called (setPointSize (ggbLabel this) v)]
       /\ outcome answer
            (GetSets.set (GetSets.size getsets) this pyValue) w
          = Returned tt)
      /\ (trace answer
            (GetSets.set (GetSets.line_thickness getsets) this pyValue) w
          = [called (setLineThickness (ggbLabel this) v)]
          /\ outcome answer
               (GetSets.set (GetSets.line_thickness getsets) this pyValue) w
             = Returned tt)
  | None =>
      run answer (GetSets.set (GetSets.size getsets) this pyValue) w
      = ([], Raised (mkErr TypeError
                           "size must be a number must be a number"), w)
      /\ run answer
           (GetSets.set (GetSets.line_thickness getsets) this pyValue) w
         = ([], Raised (mkErr TypeError
              "line_thickness must be a number must be a number"), w)
  end.
Proof.
  prog_simpl. unfold throwIfNotNumber.
  destruct (checkNumber pyValue) as [v|]; [|split; reflexivity]. simpl.
  destruct (answer _ (setPointSize (ggbLabel this) v) w) as [[] w1].
  destruct (answer _ (setLineThickness (ggbLabel this) v) w) as [[] w2].
  repeat split.
Qed.

(** With an engine that keeps what the mutators give it, a property
    reads back as what was written, in the type of its getter:
    [is_visible] as the Python bool of the truth value found for the
    value written, [size] as a Python float and [line_thickness] as a
    Python int, each with the JavaScript number written. *)
Theorem set_then_get
    (this : SkGgbObject) (pyValue : SkObject) (w : W) :
  (forall b,
     outcome answer (isTrue pyValue) w = Returned b ->
     (forall b' w0,
        (answer _ (getVisible (ggbLabel this))
           (answer _ (setVisible (ggbLabel this) b') w0).2).1 = b') ->
     outcome answer
       (bind (GetSets.set (GetSets.is_visible getsets) this pyValue)
             (fun _ => GetSets.get (GetSets.is_visible getsets) this)) w
     = Returned (SkBool b))
  /\ (forall v : number,
        checkNumber pyValue = Some (Num v) ->
        (forall w0,
           (answer _ (getPointSize (ggbLabel this))
              (answer _ (setPointSize (ggbLabel this) v) w0).2).1 = v) ->
        outcome answer
          (bind (GetSets.set (GetSets.size getsets) this pyValue)
                (fun _ => GetSets.get (GetSets.size getsets) this)) w
        = Returned (SkFloat v))
  /\ (forall v : number,
        checkNumber pyValue = Some (Num v) ->
        (forall w0,
           (answer _ (getLineThickness (ggbLabel this))
              (answer _ (setLineThickness (ggbLabel this) v) w0).2).1 = v) ->
        outcome answer
          (bind (GetSets.set (GetSets.line_thickness getsets) this pyValue)
                (fun _ => GetSets.get (GetSets.line_thickness getsets) this)) w
        = Returned (SkInt v)).
Proof.
  split; [|split].
  - intros b Hb Hkeep. prog_simpl. unfold isTrue in *.
    destruct (truthiness pyValue) as [b0|]; prog_simpl.
    + injection Hb as ->. specialize (Hkeep b w).
      destruct (answer _ (setVisible (ggbLabel this) b) w)
        as [[] w1]; simpl in *.
      destruct (answer _ (getVisible (ggbLabel this)) w1) as [b1 w2];
        simpl in *.
      subst b1. reflexivity.
    + destruct (answer _ (nb_bool pyValue) w) as [[e|b0] w0]; simpl in *;
        [discriminate|].
      injection Hb as ->. specialize (Hkeep b w0).
      destruct (answer _ (setVisible (ggbLabel this) b) w0)
        as [[] w1]; simpl in *.
      destruct (answer _ (getVisible (ggbLabel this)) w1) as [b1 w2];
        simpl in *.
      subst b1. reflexivity.
  - intros v Hv Hkeep. specialize (Hkeep w). prog_simpl.
    unfold throwIfNotNumber. rewrite Hv. simpl.
    destruct (answer _ (setPointSize (ggbLabel this) v) w) as [[] w1];
      simpl in *.
    destruct (answer _ (getPointSize (ggbLabel this)) w1) as [n w2];
      simpl in *.
    subst n. reflexivity.
  - intros v Hv Hkeep. specialize (Hkeep w). prog_simpl.
    unfold throwIfNotNumber. rewrite Hv. simpl.
    destruct (answer _ (setLineThickness (ggbLabel this) v) w) as [[] w1];
      simpl in *.
    destruct (answer _ (getLineThickness (ggbLabel this)) w1) as [n w2];
      simpl in *.
    subst n. reflexivity.
Qed.

End Setters.

Lemma set_then_get_witness :
  outcome Store.answer
    (bind (GetSets.set
             (GetSets.is_visible (sharedGetSets Demo.parseColorOrFail))
             Demo.point_A (SkStr ""))
          (fun _ => GetSets.get
             (GetSets.is_visible (sharedGetSets Demo.parseColorOrFail))
             Demo.point_A)) []
  = Returned (SkBool false)
  /\ outcome Store.answer
       (bind (GetSets.set
                (GetSets.size (sharedGetSets Demo.parseColorOrFail))
                Demo.point_A (SkInt (number_of_Z 7)))
             (fun _ => GetSets.get
                (GetSets.size (sharedGetSets Demo.parseColorOrFail))
                Demo.point_A)) []
     = Returned (SkFloat (number_of_Z 7))
  /\ outcome Store.answer
       (bind (GetSets.set
                (GetSets.line_thickness (sharedGetSets Demo.parseColorOrFail))
                Demo.point_A (SkFloat (Finite false 25 0)))
             (fun _ => GetSets.get
                (GetSets.line_thickness (sharedGetSets Demo.parseColorOrFail))
                Demo.point_A)) []
     = Returned (SkInt (Finite false 25 0)).
Proof.
  split; [|split].
  - apply (proj1 (set_then_get Demo.parseColorOrFail Store.answer
                    Demo.point_A (SkStr "") []) false).
    + reflexivity.
    + intros b w0. reflexivity.
  - apply (proj1 (proj2 (set_then_get Demo.parseColorOrFail Store.answer
                    Demo.point_A (SkInt (number_of_Z 7)) []))
             (number_of_Z 7) eq_refl).
    intros w0. reflexivity.
  - apply (proj2 (proj2 (set_then_get Demo.parseColorOrFail Store.answer
                    Demo.point_A (SkFloat (Finite false 25 0)) []))
             (Finite false 25 0) eq_refl).
    intros w0. reflexivity.
Defined.

(** ** [Rotate]: the object to rotate *)

(** With two arguments of which the first is not a wrapped object,
    [Rotate] raises its TypeError at once: the angle is not looked at and
    nothing is called. *)
Theorem Rotate_needs_object
    (assembledCommand : string -> list string -> string)
    (registry : Registry) (arg0 pyAngle : SkObject) (h : Heap) :
  _isGgbObject arg0 = None ->
  Rotate assembledCommand registry [arg0; pyAngle] h = Throw badArgsError.
Proof.
  intros H. destruct arg0; try reflexivity. discriminate.
Qed.

Lemma Rotate_needs_object_witness :
  Rotate round_brackets Demo.registry
         [SkInt (number_of_Z 5); SkInt (number_of_Z 30)] Demo.heap
  = Throw badArgsError.
Proof.
  apply (Rotate_needs_object round_brackets Demo.registry
           (SkInt (number_of_Z 5)) (SkInt (number_of_Z 30)) Demo.heap).
  reflexivity.
Defined.

(** * Further properties of the [boot] thunk *)

Module BootFacts.

Import Dependencies.

Lemma step_keeps_ggbApi (x : Input) (sys : System) :
  ggbApi (store (step x sys)) = ggbApi (store sys).
Proof.
  destruct sys as [[status api text] ts]. destruct x as [|i v]; simpl.
  - unfold boot_enter. simpl. destruct (bool_decide (status <> idle)); reflexivity.
  - destruct (ts !! i) as [[a| |]|]; try reflexivity.
    destruct v as [value|]; [destruct a|]; reflexivity.
Qed.

(** [boot] never sets the applet API: whatever is dispatched and however
    the promises settle, [ggbApi] stays what it was, so that from the
    initial state [allReady] stays false until [setGgbApi] is used. *)
Theorem boot_leaves_ggbApi :
  (forall (xs : list Input) (sys : System),
      ggbApi (store (exec xs sys)) = ggbApi (store sys))
  /\ (forall xs : list Input, allReady (store (exec xs initial)) = false).
Proof.
  assert (forall xs sys, ggbApi (store (exec xs sys)) = ggbApi (store sys)) as H.
  { induction xs as [|x xs IH]; intros sys; [reflexivity|].
    simpl. rewrite IH. apply step_keeps_ggbApi. }
  split; [exact H|].
  intros xs. unfold allReady. rewrite H. reflexivity.
Qed.

Lemma quiet_step (x : Input) (sys : System) :
  bootStatus (store sys) <> idle -> flying sys = 0 ->
  store (step x sys) = store sys /\ flying (step x sys) = 0.
Proof.
  destruct sys as [s ts]. unfold flying. simpl. intros Hs Hf.
  destruct x as [|i v]; simpl.
  - rewrite DependenciesFacts.boot_enter_guard by exact Hs. simpl.
    rewrite DependenciesFacts.count_in_flight_app, Hf. split; reflexivity.
  - destruct (ts !! i) as [[a| |]|] eqn:E; simpl; auto.
    exfalso. exact (DependenciesFacts.none_in_flight ts i a Hf E).
Qed.

Lemma quiet_exec (xs : list Input) :
  forall sys,
    bootStatus (store sys) <> idle -> flying sys = 0 ->
    store (exec xs sys) = store sys /\ flying (exec xs sys) = 0.
Proof.
  induction xs as [|x xs IH]; intros sys Hs Hf; [split; [reflexivity|exact Hf]|].
  destruct (quiet_step x sys Hs Hf) as [Hstore Hfly]. simpl.
  destruct (IH (step x sys)) as [H1 H2]; [rewrite Hstore; exact Hs|exact Hfly|].
  split; [rewrite H1; exact Hstore|exact H2].
Qed.

(** Once [boot] has started and no invocation is under way any more,
    nothing changes again: neither a new call of [boot] nor a late
    settling touches the state.  So [done] is final, and so is [running]
    after a failure: a failed [boot] is never tried again. *)
Theorem boot_over_is_final (sys : System) (xs : list Input) :
  bootStatus (store sys) <> idle -> flying sys = 0 ->
  store (exec xs sys) = store sys
  /\ flying (exec xs sys) = 0
  /\ passes xs sys = 0.
Proof.
  intros Hs Hf. destruct (quiet_exec xs sys Hs Hf) as [H1 H2].
  split; [exact H1|]. split; [exact H2|].
  clear H1 H2. revert sys Hs Hf.
  induction xs as [|x xs IH]; intros sys Hs Hf; [reflexivity|].
  destruct (quiet_step x sys Hs Hf) as [Hstore Hfly]. simpl.
  rewrite IH; [|rewrite Hstore; exact Hs|exact Hfly].
  destruct x; simpl; [|reflexivity].
  rewrite bool_decide_eq_false_2; auto.
Qed.

Lemma boot_over_is_final_witness :
  store (exec [dispatch_boot; settle 0 (Resolved "late")]
              (exec [dispatch_boot; settle 0 Failed] initial))
  = mkState running None "".
Proof.
  apply (boot_over_is_final (exec [dispatch_boot; settle 0 Failed] initial)
           [dispatch_boot; settle 0 (Resolved "late")]).
  - discriminate.
  - reflexivity.
Defined.

Lemma one_in_flight (ts : list Task) :
  forall (i j : nat) (a b : Await),
    count_in_flight ts <= 1 ->
    ts !! i = Some (Awaiting a) -> ts !! j = Some (Awaiting b) -> i = j.
Proof.
  induction ts as [|t ts IH]; intros i j a b Hc Hi Hj; [discriminate|].
  destruct i as [|i], j as [|j]; simpl in *.
  - reflexivity.
  - injection Hi as ->. simpl in Hc.
    exfalso. apply (DependenciesFacts.none_in_flight ts j b); [lia|exact Hj].
  - injection Hj as ->. simpl in Hc.
    exfalso. apply (DependenciesFacts.none_in_flight ts i a); [lia|exact Hi].
  - f_equal. apply (IH i j a b); auto.
    destruct (in_flight t); simpl in Hc; lia.
Qed.

(** While an invocation of [boot] is waiting, it is the only one that can
    change the state: a further call of [boot], or the settling of any
    other invocation, leaves the state and the waiting invocation as
    they are. *)
Theorem boot_in_flight_undisturbed
    (sys : System) (i : nat) (a : Await) (x : Input) :
  guarded sys ->
  tasks sys !! i = Some (Awaiting a) ->
  (forall v, x <> settle i v) ->
  store (step x sys) = store sys
  /\ tasks (step x sys) !! i = Some (Awaiting a).
Proof.
  destruct sys as [[status api text] ts]. unfold guarded, flying. simpl.
  intros G Hi Hx.
  assert (status = running /\ count_in_flight ts <= 1) as [-> Hc].
  { destruct status; try (split; [reflexivity|exact G]);
      exfalso; exact (DependenciesFacts.none_in_flight ts i a G Hi). }
  destruct x as [|j v]; simpl.
  - split; [reflexivity|]. apply lookup_app_l_Some, Hi.
  - destruct (ts !! j) as [[b| |]|] eqn:Hj; simpl; auto.
    exfalso. apply (Hx v). f_equal. symmetry.
    exact (one_in_flight ts i j a b Hc Hi Hj).
Qed.

Lemma boot_in_flight_undisturbed_witness :
  store (step dispatch_boot (exec [dispatch_boot] initial))
  = store (exec [dispatch_boot] initial)
  /\ tasks (step dispatch_boot (exec [dispatch_boot] initial)) !! 0
     = Some (Awaiting fetch_module).
Proof.
  apply (boot_in_flight_undisturbed (exec [dispatch_boot] initial) 0
           fetch_module dispatch_boot).
  - vm_compute. lia.
  - reflexivity.
  - discriminate.
Defined.

(** An invocation of [boot] that is past the guard and whose three
    promises resolve sets the module text to the text of the response and
    ends with [bootStatus] at [done], whatever it was before. *)
Theorem boot_completes
    (sys : System) (i : nat) (response text files : string) :
  tasks sys !! i = Some (Awaiting fetch_module) ->
  let sys' := exec [settle i (Resolved response); settle i (Resolved text);
                    settle i (Resolved files)] sys in
  store sys'
  = mkState done (ggbApi (store sys)) text
  /\ tasks sys' = <[i := Returned]> (tasks sys).
Proof.
  destruct sys as [[status api txt] ts]. simpl. intros Hi.
  assert (i < length ts) as Hlt by (eapply lookup_lt_Some; exact Hi).
  unfold exec. simpl. rewrite Hi. simpl.
  rewrite list_lookup_insert_eq by exact Hlt. simpl.
  rewrite list_lookup_insert_eq by (rewrite length_insert; exact Hlt). simpl.
  rewrite !list_insert_insert_eq. split; reflexivity.
Qed.

Lemma boot_completes_witness :
  store (exec [settle 0 (Resolved ""); settle 0 (Resolved "import ggb");
               settle 0 (Resolved "")]
              (exec [dispatch_boot] initial))
  = mkState done None "import ggb".
Proof.
  apply (boot_completes (exec [dispatch_boot] initial) 0 "" "import ggb" "").
  reflexivity.
Defined.

End BootFacts.

(** * Properties of [deIndent] *)

Module DeIndentFacts.

Import DeIndent.

Example deIndent_program :
  deIndent (unlines [""; "    if x:"; "      y = 1"; ""; "    z = 2"] ++ "  ")
  = Value (unlines ["if x:"; "  y = 1"; ""; "z = 2"]).
Proof. reflexivity. Qed.

Example deIndent_blank_only :
  deIndent (unlines [""; "   "; " "] ++ "") = Value (unlines [""; ""]).
Proof. reflexivity. Qed.

Example deIndent_empty : deIndent "" = Value (unlines [""]).
Proof. reflexivity. Qed.

Example deIndent_last_line :
  deIndent (unlines [""; "x = 1"] ++ "y") 
  = Error "need all-spaces last line of code".
Proof. reflexivity. Qed.

Lemma split_not_nil (c : ascii) (s : string) : Js.split c s <> [].
Proof.
  destruct s as [|d s]; simpl; [discriminate|].
  destruct (Ascii.eqb d c); [discriminate|].
  destruct (Js.split c s); discriminate.
Qed.

Lemma split_first (c : ascii) (s : string) :
  Js.split c s !! 0 = Some EmptyString
  <-> s = EmptyString \/ exists rest, s = String c rest.
Proof.
  destruct s as [|d s]; simpl.
  - split; auto.
  - destruct (Ascii.eqb d c) eqn:E.
    + apply Ascii.eqb_eq in E as ->. split; eauto.
    + split.
      * destruct (Js.split c s); discriminate.
      * intros [H|[rest [= -> _]]]; [discriminate|].
        rewrite Ascii.eqb_refl in E. discriminate.
Qed.

(** [deIndent] raises "need empty first line of code" exactly for the
    texts that begin with a character other than a line feed; the empty
    text is accepted. *)
Theorem deIndent_first_line (rawCode : string) :
  deIndent rawCode = Error "need empty first line of code"
  <-> exists c rest, rawCode = String c rest /\ c <> newline.
Proof.
  unfold deIndent. pose proof (split_first newline rawCode) as Hfirst.
  destruct (bool_decide (Js.split newline rawCode !! 0 = Some EmptyString))
    eqn:Hb; simpl.
  - apply bool_decide_eq_true_1 in Hb. apply Hfirst in Hb. split.
    + destruct (negb _); discriminate.
    + intros (c & rest & -> & Hc). destruct Hb as [Hb|[r [= -> _]]];
        [discriminate|contradiction].
  - apply bool_decide_eq_false_1 in Hb. split; [intros _|reflexivity].
    destruct rawCode as [|c rest]; [exfalso; apply Hb, Hfirst; auto|].
    exists c, rest. split; [reflexivity|].
    intros ->. apply Hb, Hfirst. eauto.
Qed.

Lemma math_min_nil (xs : list nat) : math_min xs = None -> xs = [].
Proof.
  destruct xs as [|x xs]; [reflexivity|]. simpl.
  destruct (math_min xs); discriminate.
Qed.

Lemma math_min_least (xs : list nat) :
  forall m, math_min xs = Some m -> In m xs /\ forall x, In x xs -> m <= x.
Proof.
  induction xs as [|x xs IH]; intros m H; [discriminate|]. simpl in H.
  destruct (math_min xs) as [y|] eqn:E.
  - injection H as <-. destruct (IH y eq_refl) as [Hin Hle]. split.
    + destruct (Nat.min_spec x y) as [[_ ->]|[_ ->]]; simpl; auto.
    + intros z [<-|Hz]; [lia|]. specialize (Hle z Hz). lia.
  - injection H as <-. apply math_min_nil in E as ->. split; [left; reflexivity|].
    intros z [<-|[]]. lia.
Qed.

Lemma strip_blank (s : string) :
  allSpaces s = true -> forall k, exists n, s = spaces n ++ drop_chars k s.
Proof.
  induction s as [|c s IH]; intros H k.
  - exists 0. destruct k; reflexivity.
  - simpl in H. apply andb_prop in H as [Hc Hs].
    apply Ascii.eqb_eq in Hc as ->. destruct k as [|k].
    + exists 0. reflexivity.
    + destruct (IH Hs k) as [n Hn]. exists (S n).
      exact (f_equal (String " ") Hn).
Qed.

Lemma blank_is_spaces (s : string) :
  allSpaces s = true -> s = spaces (String.length s).
Proof.
  induction s as [|c s IH]; intros H; [reflexivity|].
  simpl in H. apply andb_prop in H as [Hc Hs].
  apply Ascii.eqb_eq in Hc as ->. exact (f_equal (String " ") (IH Hs)).
Qed.

Lemma append_empty (s : string) : s ++ EmptyString = s.
Proof.
  induction s as [|c s IH]; [reflexivity|]. exact (f_equal (String c) IH).
Qed.

Lemma strip_indent (s : string) :
  forall k, k <= initialSpaces s -> s = spaces k ++ drop_chars k s.
Proof.
  induction s as [|c s IH]; intros [|k] H; try reflexivity.
  - simpl in H. lia.
  - simpl in H. destruct (Ascii.eqb c " ") eqn:E; [|lia].
    apply Ascii.eqb_eq in E as ->.
    refine (f_equal (String " ") (IH k _)). lia.
Qed.

Lemma deIndent_value (rawCode out : string) :
  deIndent rawCode = Value out ->
  out = Js.join (String newline EmptyString)
          (map (substring (least_indent (inner rawCode))) (inner rawCode))
        ++ String newline EmptyString.
Proof.
  unfold deIndent, inner, least_indent, code_lines.
  destruct (negb (bool_decide _)); [discriminate|].
  destruct (negb (default false _)); [discriminate|].
  intros [= <-]. reflexivity.
Qed.

Lemma least_indent_bounds (lines : list string) (line : string) (m : nat) :
  least_indent lines = Some m ->
  In line lines -> allSpaces line = false -> m <= initialSpaces line.
Proof.
  intros Hm Hin Hcode. apply math_min_least in Hm as [_ Hle].
  apply Hle, in_map, filter_In. rewrite Hcode. auto.
Qed.

Lemma least_indent_none (lines : list string) (line : string) :
  least_indent lines = None -> In line lines -> allSpaces line = true.
Proof.
  intros Hm Hin. apply math_min_nil in Hm.
  destruct (allSpaces line) eqn:Hcode; [reflexivity|].
  assert (In (initialSpaces line) (map initialSpaces (code_lines lines))) as H
      by (apply in_map, filter_In; rewrite Hcode; auto).
  rewrite Hm in H. contradiction.
Qed.

Lemma Forall2_map_same {A B : Type} (P : A -> B -> Prop) (f : A -> B)
    (xs : list A) :
  (forall x, In x xs -> P x (f x)) -> Forall2 P xs (map f xs).
Proof.
  induction xs as [|x xs IH]; intros H; simpl; constructor.
  - apply H. left. reflexivity.
  - apply IH. intros y Hy. apply H. right. exact Hy.
Qed.

(** [deIndent] takes nothing but leading spaces away: each line of its
    result is the line of the text it comes from, less some spaces at its
    start. *)
Theorem deIndent_strips_only_spaces (rawCode out : string) :
  deIndent rawCode = Value out ->
  exists stripped : list string,
    out = Js.join (String newline EmptyString) stripped
          ++ String newline EmptyString
    /\ Forall2 (fun line new => exists n, line = spaces n ++ new)
               (inner rawCode) stripped.
Proof.
  intros H. apply deIndent_value in H.
  eexists. split; [exact H|]. apply Forall2_map_same. intros line Hin.
  destruct (least_indent (inner rawCode)) as [m|] eqn:Hm; simpl.
  - destruct (allSpaces line) eqn:Hcode.
    + apply strip_blank, Hcode.
    + exists m. apply strip_indent.
      exact (least_indent_bounds _ _ _ Hm Hin Hcode).
  - exists (String.length line).
    rewrite <- (blank_is_spaces line (least_indent_none _ _ Hm Hin)).
    symmetry. apply append_empty.
Qed.

Lemma deIndent_strips_only_spaces_witness :
  exists stripped : list string,
    unlines ["x = 1"; "  y = 2"]
    = Js.join (String newline EmptyString) stripped
      ++ String newline EmptyString
    /\ Forall2 (fun line new => exists n, line = spaces n ++ new)
               (inner (unlines [""; "  x = 1"; "    y = 2"] ++ " ")) stripped.
Proof.
  apply (deIndent_strips_only_spaces
           (unlines [""; "  x = 1"; "    y = 2"] ++ " ")
           (unlines ["x = 1"; "  y = 2"])).
  reflexivity.
Defined.

Lemma initialSpaces_drop (s : string) :
  forall k, k <= initialSpaces s ->
            initialSpaces (drop_chars k s) = initialSpaces s - k.
Proof.
  induction s as [|c s IH]; intros [|k] H;
    try (simpl drop_chars; lia); simpl in H; [lia|].
  simpl. destruct (Ascii.eqb c " "); [|lia].
  apply IH. lia.
Qed.

Lemma allSpaces_drop (s : string) :
  forall k, k <= initialSpaces s ->
            allSpaces (drop_chars k s) = allSpaces s.
Proof.
  induction s as [|c s IH]; intros [|k] H; try reflexivity.
  simpl in H |- *. destruct (Ascii.eqb c " "); [|lia].
  simpl. apply IH. lia.
Qed.

(** When the text has a line of code, that is a line not made of spaces
    only, all the lines of code lose the same number of spaces, the
    indent of the least indented one: they stay lines of code, keep
    their indents relative to each other, and one of them starts at the
    margin. *)
Theorem deIndent_common_indent (rawCode out : string) :
  deIndent rawCode = Value out ->
  code_lines (inner rawCode) <> [] ->
  exists m : nat,
    out = Js.join (String newline EmptyString)
            (map (drop_chars m) (inner rawCode))
          ++ String newline EmptyString
    /\ Forall (fun line =>
                 allSpaces line = false ->
                 m <= initialSpaces line
                 /\ allSpaces (drop_chars m line) = false
                 /\ initialSpaces (drop_chars m line)
                    = initialSpaces line - m)
              (inner rawCode)
    /\ Exists (fun line =>
                 allSpaces line = false
                 /\ initialSpaces (drop_chars m line) = 0)
              (inner rawCode).
Proof.
  intros H Hcode. apply deIndent_value in H.
  destruct (least_indent (inner rawCode)) as [m|] eqn:Hm.
  - exists m. split; [exact H|]. split.
    + apply List.Forall_forall. intros line Hin Hline.
      assert (m <= initialSpaces line) as Hle
          by exact (least_indent_bounds _ _ _ Hm Hin Hline).
      split; [exact Hle|]. split.
      * rewrite allSpaces_drop; assumption.
      * apply initialSpaces_drop, Hle.
    + pose proof Hm as Hmin. apply math_min_least in Hmin as [Hin _].
      apply in_map_iff in Hin as (line & Hind & Hin).
      apply filter_In in Hin as [Hin Hline].
      apply List.Exists_exists. exists line. split; [exact Hin|]. split.
      * destruct (allSpaces line); [discriminate|reflexivity].
      * rewrite initialSpaces_drop; lia.
  - exfalso. apply Hcode. unfold least_indent in Hm.
    apply math_min_nil in Hm. destruct (code_lines (inner rawCode));
      [reflexivity|discriminate].
Qed.

Lemma deIndent_common_indent_witness :
  exists m : nat,
    unlines ["x = 1"; "  y = 2"]
    = Js.join (String newline EmptyString)
        (map (drop_chars m) (inner (unlines [""; "  x = 1"; "    y = 2"] ++ " ")))
      ++ String newline EmptyString.
Proof.
  destruct (deIndent_common_indent
              (unlines [""; "  x = 1"; "    y = 2"] ++ " ")
              (unlines ["x = 1"; "  y = 2"]) eq_refl) as (m & Hm & _).
  - discriminate.
  - exists m. exact Hm.
Defined.

Lemma append_assoc (a b c : string) : (a ++ b) ++ c = a ++ (b ++ c).
Proof.
  induction a as [|d a IH]; [reflexivity|]. exact (f_equal (String d) IH).
Qed.

Lemma split_cons_sep (c : ascii) (a rest : string) :
  Js.lacks c a = true ->
  Js.split c (a ++ String c rest) = a :: Js.split c rest.
Proof.
  intros Ha. induction a as [|d a IH]; simpl.
  - rewrite Ascii.eqb_refl. reflexivity.
  - simpl in Ha. apply andb_prop in Ha as [Hd Ha].
    apply negb_true_iff in Hd. rewrite Hd, (IH Ha). reflexivity.
Qed.

Lemma split_parts_lack (c : ascii) (s : string) :
  Forall (fun part => Js.lacks c part = true) (Js.split c s).
Proof.
  induction s as [|d s IH]; simpl.
  - repeat constructor.
  - destruct (Ascii.eqb d c) eqn:E; [constructor; [reflexivity|exact IH]|].
    destruct (Js.split c s) as [|h t]; [repeat constructor; simpl; rewrite E; reflexivity|].
    inversion IH as [|? ? Hh Ht]; subst. constructor; [|exact Ht].
    simpl. rewrite E, Hh. reflexivity.
Qed.

Lemma lacks_drop_chars (c : ascii) (s : string) :
  forall k, Js.lacks c s = true -> Js.lacks c (drop_chars k s) = true.
Proof.
  induction s as [|d s IH]; intros [|k] H; try exact H; try reflexivity.
  simpl in H |- *. apply andb_prop in H as [_ H]. apply IH, H.
Qed.

Lemma split_joined (xs : list string) :
  xs <> [] ->
  Forall (fun line => Js.lacks newline line = true) xs ->
  Js.split newline
    (Js.join (String newline EmptyString) xs ++ String newline EmptyString)
  = (xs ++ [EmptyString])%list.
Proof.
  induction xs as [|x [|y rest] IH]; intros Hne Hlack; [contradiction| |].
  - inversion Hlack as [|? ? Hx _]; subst. simpl Js.join.
    rewrite (split_cons_sep newline x EmptyString Hx). reflexivity.
  - inversion Hlack as [|? ? Hx Hrest]; subst.
    change (Js.join (String newline EmptyString) (x :: y :: rest))
      with (x ++ String newline EmptyString
              ++ Js.join (String newline EmptyString) (y :: rest)).
    rewrite append_assoc.
    change ((String newline EmptyString
             ++ Js.join (String newline EmptyString) (y :: rest))
            ++ String newline EmptyString)
      with (String newline
              (Js.join (String newline EmptyString) (y :: rest)
               ++ String newline EmptyString)).
    rewrite (split_cons_sep newline x _ Hx), IH; [reflexivity|discriminate|exact Hrest].
Qed.

Lemma inner_wrapped (xs : list string) :
  slice 1 (length (EmptyString :: xs ++ [EmptyString])%list - 1)
        (EmptyString :: xs ++ [EmptyString])%list
  = xs.
Proof.
  unfold slice. simpl. rewrite length_app. simpl.
  replace (length xs + 1 - 0 - 1) with (length xs) by lia.
  apply take_app_length.
Qed.

Lemma math_min_zero (xs : list nat) : In 0 xs -> math_min xs = Some 0.
Proof.
  induction xs as [|x xs IH]; intros Hin; [contradiction|]. simpl.
  destruct Hin as [->|Hin].
  - destruct (math_min xs); reflexivity.
  - rewrite (IH Hin), Nat.min_0_r. reflexivity.
Qed.

Lemma allSpaces_drop_blank (s : string) :
  forall k, allSpaces s = true -> allSpaces (drop_chars k s) = true.
Proof.
  induction s as [|c s IH]; intros [|k] H; try exact H; try reflexivity.
  simpl in H |- *. apply andb_prop in H as [_ H]. apply IH, H.
Qed.

Lemma drop_chars_0 (s : string) : drop_chars 0 s = s.
Proof. destruct s; reflexivity. Qed.

(** What [deIndent] has stripped, it strips no further. *)
Lemma stripped_is_stable (lines : list string) :
  let stripped := map (substring (least_indent lines)) lines in
  map (substring (least_indent stripped)) stripped = stripped.
Proof.
  intros stripped. subst stripped.
  destruct (least_indent lines) as [m|] eqn:Hm.
  - assert (forall line, In line lines ->
              allSpaces (drop_chars m line) = allSpaces line) as Hblank.
    { intros line Hin. destruct (allSpaces line) eqn:Hline.
      - apply allSpaces_drop_blank, Hline.
      - rewrite allSpaces_drop; [exact Hline|].
        exact (least_indent_bounds _ _ _ Hm Hin Hline). }
    assert (least_indent (map (substring (Some m)) lines) = Some 0) as ->.
    { apply math_min_zero. pose proof Hm as Hmin.
      apply math_min_least in Hmin as [Hin _].
      apply in_map_iff in Hin as (line & Hind & Hin).
      apply filter_In in Hin as [Hin Hline].
      apply in_map_iff. exists (drop_chars m line). split.
      - rewrite initialSpaces_drop; lia.
      - apply filter_In. split; [apply in_map, Hin|].
        rewrite Hblank; assumption. }
    rewrite map_map. apply map_ext. intros line. apply drop_chars_0.
  - assert (least_indent (map (substring None) lines) = None) as ->.
    { unfold least_indent, code_lines. clear Hm.
      induction lines as [|l lines IH]; [reflexivity|exact IH]. }
    rewrite map_map. reflexivity.
Qed.

(** [deIndent] is idempotent: its result, put after a line feed to make
    the empty first line that [deIndent] asks for, is accepted and given
    back as it is. *)
Theorem deIndent_idempotent (rawCode out : string) :
  deIndent rawCode = Value out ->
  deIndent (String newline out) = Value out.
Proof.
  intros H. apply deIndent_value in H.
  pose proof (stripped_is_stable (inner rawCode)) as Hstable.
  simpl in Hstable.
  assert (Forall (fun line => Js.lacks newline line = true)
                 (map (substring (least_indent (inner rawCode)))
                      (inner rawCode))) as Hlack.
  { apply List.Forall_forall. intros new Hin.
    apply in_map_iff in Hin as (line & <- & Hin).
    assert (Js.lacks newline line = true) as Hline.
    { revert line Hin. apply List.Forall_forall. unfold inner, slice.
      apply Forall_take, Forall_drop, split_parts_lack. }
    destruct (least_indent _); [apply lacks_drop_chars, Hline|reflexivity]. }
  remember (map (substring (least_indent (inner rawCode))) (inner rawCode))
    as stripped eqn:Hs.
  clear Hs. subst out.
  destruct stripped as [|new rest]; [reflexivity|].
  remember (new :: rest) as stripped eqn:Hs.
  assert (Js.split newline
            (String newline
               (Js.join (String newline EmptyString) stripped
                ++ String newline EmptyString))
          = (EmptyString :: stripped ++ [EmptyString])%list) as Hsplit.
  { transitivity
      (EmptyString
         :: Js.split newline
              (Js.join (String newline EmptyString) stripped
               ++ String newline EmptyString)); [reflexivity|].
    f_equal. apply split_joined; [subst stripped; discriminate|exact Hlack]. }
  unfold deIndent. rewrite Hsplit.
  assert ((EmptyString :: stripped ++ [EmptyString])%list !! 0
          = Some EmptyString) as -> by reflexivity.
  rewrite bool_decide_eq_true_2 by reflexivity.
  assert ((EmptyString :: stripped ++ [EmptyString])%list
            !! (length (EmptyString :: stripped ++ [EmptyString])%list - 1)
          = Some EmptyString) as ->.
  { simpl. rewrite Nat.sub_0_r, length_app. simpl.
    replace (length stripped + 1) with (S (length stripped)) by lia.
    simpl. rewrite lookup_app_r by lia.
    rewrite Nat.sub_diag. reflexivity. }
  cbn [negb fmap option_fmap option_map default allSpaces].
  rewrite inner_wrapped.
  fold (code_lines stripped). fold (least_indent stripped).
  rewrite Hstable. reflexivity.
Qed.

Lemma deIndent_idempotent_witness :
  deIndent (String newline (unlines ["if x:"; "  y = 1"; ""; "z = 2"]))
  = Value (unlines ["if x:"; "  y = 1"; ""; "z = 2"]).
Proof.
  apply (deIndent_idempotent
           (unlines [""; "    if x:"; "      y = 1"; ""; "    z = 2"] ++ "  ")).
  reflexivity.
Defined.

End DeIndentFacts.

(** * The literal, evaluated by the engine *)

Example literal_of_one_and_a_half :
  Binary64.eval_literal (strOfNumber (Finite false 15 0))
  = Some (Binary64.double_of (Finite false 15 0)).
Proof. vm_compute. reflexivity. Qed.

Example literal_of_a_small_number :
  Binary64.eval_literal (strOfNumber (Finite false 41693084667370053 (-38)))
  = Some (Binary64.double_of (Finite false 41693084667370053 (-38))).
Proof. vm_compute. reflexivity. Qed.

(** C1, where the code fails it.  The smallest positive double prints as
    [5e-324]; its literal is [(5*10^(-324))], in which the power of ten
    is below every positive double and is evaluated to zero, so that the
    literal is evaluated to zero and not to the number.  Three tenths
    prints as [3e-1]; its literal is [(3*10^(-1))], and three times the
    double nearest to a tenth is the double after the one nearest to
    three tenths. *)
Theorem literal_round_trip_fails :
  (strOfNumber (Finite false 5 (-324)) = "(5*10^(-324))"
   /\ Binary64.double_of (Finite false 5 (-324))
      = S754_finite false 1 (-1074)
   /\ Binary64.eval_literal (strOfNumber (Finite false 5 (-324)))
      = Some (S754_zero false))
  /\ (strOfNumber (Finite false 3 (-1)) = "(3*10^(-1))"
      /\ Binary64.double_of (Finite false 3 (-1))
         = S754_finite false 5404319552844595 (-54)
      /\ Binary64.eval_literal (strOfNumber (Finite false 3 (-1)))
         = Some (S754_finite false 5404319552844596 (-54))).
Proof. vm_compute. repeat split. Qed.

(** * A Python int held as a BigInt *)

Example numberValueOrLabel_big_int :
  numberValueOrLabel (SkInt (Big (2 ^ 53))) = Throw notAFunction
  /\ isPythonOrGgbNumber (SkInt (Big (2 ^ 53))) = Ret true.
Proof. split; reflexivity. Qed.

(** * [free_copy] on the engine's construction *)

Lemma strip_prefix_app (p s : string) :
  Text.strip_prefix p (p ++ s) = Some s.
Proof.
  induction p as [|c p IH]; [destruct s; reflexivity|].
  simpl. rewrite Ascii.eqb_refl. exact IH.
Qed.

Lemma strip_last_app (c : ascii) (s : string) :
  Text.strip_last c (s ++ String c EmptyString) = Some s.
Proof.
  induction s as [|d s IH]; simpl.
  - rewrite Ascii.eqb_refl. reflexivity.
  - rewrite IH. destruct s; reflexivity.
Qed.

Lemma copied_label_of_command (label : string) :
  Engine.copied_label ("CopyFreeObject(" ++ label ++ ")") = Some label.
Proof.
  unfold Engine.copied_label.
  rewrite (strip_prefix_app "CopyFreeObject(" (label ++ ")")). simpl.
  apply strip_last_app.
Qed.

Lemma change_other (label other : string)
    (f : Engine.GeoObject -> Engine.GeoObject) (c : Engine.Construction) :
  label <> other -> Engine.change label f c !! other = c !! other.
Proof.
  intros Hne. unfold Engine.change.
  destruct (c !! label); [apply lookup_insert_ne, Hne|reflexivity].
Qed.

Section FreeCopy.

Variable parseColorOrFail : string -> PyErr + list number.
Variable registry : Registry.

Let getsets := sharedGetSets parseColorOrFail.

(** Whatever is written to a property of the wrapper [new], the object
    under another label stays what it was. *)
Lemma writes_stay_apart
    (new : SkGgbObject) (other : string) (c : Engine.Construction)
    (pyValue : SkObject) :
  ggbLabel new <> other ->
  world_after Engine.answer
    (GetSets.set (GetSets.is_visible getsets) new pyValue) c !! other
  = c !! other
  /\ world_after Engine.answer
       (GetSets.set (GetSets.color getsets) new pyValue) c !! other
     = c !! other
  /\ world_after Engine.answer
       (GetSets.set (GetSets.size getsets) new pyValue) c !! other
     = c !! other
  /\ world_after Engine.answer
       (GetSets.set (GetSets.line_thickness getsets) new pyValue) c !! other
     = c !! other.
Proof.
  intros Hne. prog_simpl.
  unfold isTrue, throwIfNotString, throwIfNotNumber.
  repeat split.
  - destruct (truthiness pyValue); simpl; apply change_other, Hne.
  - destruct (checkString pyValue) as [v|]; [|reflexivity]. simpl.
    destruct (parseColorOrFail v); [reflexivity|]. simpl.
    apply change_other, Hne.
  - destruct (checkNumber pyValue); [|reflexivity]. simpl.
    apply change_other, Hne.
  - destruct (checkNumber pyValue); [|reflexivity]. simpl.
    apply change_other, Hne.
Qed.

(** C6: on the engine's construction, [free_copy()] of a wrapper whose
    object is there has the engine evaluate [CopyFreeObject] on the
    object's label and returns the wrapper that the class registered for
    the object's type makes over the label returned.  The wrapper is a
    new one and the label a new one; the object under it has the type
    and the attributes that the object copied has at that time, so that
    every shared property reads on the copy as on the original; it is
    independent; the original is left as it was, and stays so whatever
    is written to the copy afterwards. *)
Theorem free_copy_duplicates
    (this : SkGgbObject) (h : Heap) (c : Engine.Construction)
    (obj : Engine.GeoObject) (cls : string) :
  c !! ggbLabel this = Some obj ->
  registry !! Engine.geoType obj = Some cls ->
  let label := fresh (dom c) in
  let new := mkGgb (fresh (dom h)) cls label in
  let c' := <[label := Engine.free_copy_of obj]> c in
  run Engine.answer (free_copy registry this h) c
  = ([called (evalCommandGetLabels
                ("CopyFreeObject(" ++ ggbLabel this ++ ")"));
      called (getObjectType label)],
     Returned (SkGgb new, <[objId new := []]> h),
     c')
  /\ (c !! label = None /\ label <> ggbLabel this /\ h !! objId new = None)
  /\ (outcome Engine.answer (GetSets.get (GetSets.is_visible getsets) new) c'
      = outcome Engine.answer
          (GetSets.get (GetSets.is_visible getsets) this) c
      /\ outcome Engine.answer (GetSets.get (GetSets.color getsets) new) c'
         = outcome Engine.answer
             (GetSets.get (GetSets.color getsets) this) c
      /\ outcome Engine.answer (GetSets.get (GetSets.size getsets) new) c'
         = outcome Engine.answer
             (GetSets.get (GetSets.size getsets) this) c
      /\ outcome Engine.answer
           (GetSets.get (GetSets.line_thickness getsets) new) c'
         = outcome Engine.answer
             (GetSets.get (GetSets.line_thickness getsets) this) c
      /\ outcome Engine.answer (isGgbObject (SkGgb new) (Some (Engine.geoType obj))) c'
         = Returned (Some new))
  /\ outcome Engine.answer
       (GetSets.ro_get (GetSets.is_independent getsets) new) c'
     = Returned (SkBool true)
  /\ c' !! ggbLabel this = Some obj
  /\ (forall pyValue,
        world_after Engine.answer
          (GetSets.set (GetSets.is_visible getsets) new pyValue) c'
          !! ggbLabel this = Some obj
        /\ world_after Engine.answer
             (GetSets.set (GetSets.color getsets) new pyValue) c'
             !! ggbLabel this = Some obj
        /\ world_after Engine.answer
             (GetSets.set (GetSets.size getsets) new pyValue) c'
             !! ggbLabel this = Some obj
        /\ world_after Engine.answer
             (GetSets.set (GetSets.line_thickness getsets) new pyValue) c'
             !! ggbLabel this = Some obj).
Proof.
  intros Hobj Hcls label new c'.
  assert (c !! label = None) as Hfresh
      by (apply not_elem_of_dom, is_fresh).
  assert (label <> ggbLabel this) as Hne
      by (intros E; rewrite E in Hfresh; congruence).
  assert (c' !! label = Some (Engine.free_copy_of obj)) as Hnew
      by apply lookup_insert_eq.
  assert (c' !! ggbLabel this = Some obj) as Hold
      by (subst c'; rewrite lookup_insert_ne; assumption).
  split; [|split; [|split; [|split; [|split]]]].
  - prog_simpl. unfold Engine.evalCommand.
    rewrite copied_label_of_command, Hobj. simpl.
    fold label. fold c'. rewrite Hnew. simpl. rewrite Hcls. reflexivity.
  - repeat split; [exact Hfresh|exact Hne|apply fresh_not_allocated].
  - prog_simpl. rewrite Hnew, Hobj. simpl.
    rewrite String.eqb_refl. repeat split.
  - prog_simpl. rewrite Hnew. reflexivity.
  - exact Hold.
  - intros pyValue.
    destruct (writes_stay_apart new (ggbLabel this) c' pyValue Hne)
      as (H1 & H2 & H3 & H4).
    rewrite H1, H2, H3, H4. repeat split; exact Hold.
Qed.

End FreeCopy.

Lemma free_copy_duplicates_witness :
  run Engine.answer (free_copy Demo.registry Demo.point_A Demo.heap)
      Engine.construction
  = ([called (evalCommandGetLabels "CopyFreeObject(A)");
      called (getObjectType (fresh (dom Engine.construction)))],
     Returned
       (SkGgb (mkGgb (fresh (dom Demo.heap)) "Point"
                     (fresh (dom Engine.construction))),
        <[fresh (dom Demo.heap) := []]> Demo.heap),
     <[fresh (dom Engine.construction)
       := Engine.free_copy_of Engine.point]> Engine.construction).
Proof.
  apply (free_copy_duplicates Demo.parseColorOrFail Demo.registry
           Demo.point_A Demo.heap Engine.construction Engine.point "Point");
    reflexivity.
Defined.

Example free_copy_of_nothing :
  run Engine.answer
      (free_copy Demo.registry (mkGgb 7 "Point" "Z") Demo.heap)
      Engine.construction
  = ([called (evalCommandGetLabels "CopyFreeObject(Z)");
      called (getObjectType "")],
     Raised (mkErr UnknownTypeError ""), Engine.construction).
Proof. reflexivity. Qed.
